(** * CoinButlerV3: a shallow embedding of the trading bot's ledger,
    configuration store, exchange helpers, recommendation tracker and
    rebalancing paths, with the properties claimed of them.

  Conventions of the embedding.
  - Python [float] values (prices, quantities, amounts, rates) are exact
    rationals [Q]; comparisons are the boolean tests of [QArith].
  - A [datetime] is a number of seconds ([Z]); its calendar date is the
    number of whole days it contains.
  - A Python [dict] is a [gmap]; a file holding a JSON object is a field of
    the state holding the map ([None] when the file does not exist).
  - A raised exception is the [Raise] branch of [result]. *)

From Stdlib Require Import QArith Qminmax Lqa.
From stdpp Require Import gmap strings list fin_maps sorting.

Open Scope string_scope.
Open Scope list_scope.

(** ** Python values shared by the modules *)

Module Py.

Inductive exn :=
| AttributeError (obj attr : string)
| TypeError (msg : string)
| ValueError (msg : string)
| ZeroDivisionError
| NameError (name : string)
| HTTPError (status_code : Z)
| ConnectionError
| IOError.

Inductive result (A : Type) :=
| Ok (a : A)
| Raise (e : exn).
Arguments Ok {A} a.
Arguments Raise {A} e.

Definition bind {A B} (r : result A) (k : A → result B) : result B :=
  match r with
  | Ok a => k a
  | Raise e => Raise e
  end.

(** [datetime] and [date]. *)
Definition datetime := Z.
Definition date := Z.
Bind Scope Z_scope with datetime date.
Definition date_of (t : datetime) : date := (t / 86400)%Z.
(** [(a - b).days] of a [timedelta]. *)
Definition days_between (later earlier : datetime) : Z :=
  ((later - earlier) / 86400)%Z.

(** Attribute lookup on an instance of a class whose attributes are
    [attrs]: a missing name raises [AttributeError]. *)
Definition getattr (cls : string) (attrs : list string) (name : string)
  : result unit :=
  if bool_decide (name ∈ attrs) then Ok tt
  else Raise (AttributeError cls name).

End Py.

Import Py.

#[global] Instance result_mbind : MBind Py.result := λ A B k r, Py.bind r k.
#[global] Instance result_mret : MRet Py.result := λ A a, Py.Ok a.

(** ** risk_manager.py *)

Module RiskManager.

Local Open Scope Q_scope.

(** class Position *)
Record Position := mkPosition {
  market : string;
  entry_price : Q;
  quantity : Q;
  entry_time : datetime;
  investment_amount : Q;
  exit_price : option Q;
  exit_time : option datetime;
  status : string;
  profit_loss : option Q
}.

(** Position.__init__ *)
Definition Position_init (market : string) (entry_price quantity : Q)
    (entry_time : datetime) (investment_amount : Q) : Position :=
  mkPosition market entry_price quantity entry_time investment_amount
             None None "open" None.

(** The names an instance of [Position] answers to: its fields and its
    methods.  The class defines neither [get] nor [__getitem__]. *)
Definition Position_attrs : list string :=
  [ "market"; "entry_price"; "quantity"; "entry_time"; "investment_amount";
    "exit_price"; "exit_time"; "status"; "profit_loss";
    "calculate_current_pnl"; "calculate_pnl_rate"; "close_position";
    "to_dict" ].

Definition calculate_current_pnl (self : Position) (current_price : Q) : Q :=
  let current_value := quantity self * current_price in
  current_value - investment_amount self.

(** Float division by zero raises. *)
Definition calculate_pnl_rate (self : Position) (current_price : Q)
  : result Q :=
  let pnl := calculate_current_pnl self current_price in
  if Qeq_bool (investment_amount self) 0 then Raise ZeroDivisionError
  else Ok ((pnl / investment_amount self) * 100).

(** Position.close_position: the object is updated in place; the updated
    object and the realized profit are returned. *)
Definition Position_close_position (self : Position) (exit_price : Q)
    (exit_time : datetime) : Position * Q :=
  let pl := calculate_current_pnl self exit_price in
  (mkPosition (market self) (entry_price self) (quantity self)
              (entry_time self) (investment_amount self)
              (Some exit_price) (Some exit_time) "closed" (Some pl),
   pl).

(** One row of trade_history.csv. *)
Record TradeRow := mkTradeRow {
  row_timestamp : datetime;
  row_market : string;
  row_action : string;
  row_price : Q;
  row_quantity : Q;
  row_amount : Q;
  row_profit_loss : Q;
  row_cumulative_pnl : Q;
  row_status : string
}.

(** class RiskManager, with the three files it owns. *)
Record t := mkRiskManager {
  daily_loss_limit : Q;
  max_positions : Z;
  positions : gmap string Position;
  trade_history_file : list TradeRow;
  daily_pnl_file : option (gmap date Q);
  positions_file : gmap string Position
}.

Definition is_open (p : Position) : Prop := status p = "open".

Definition open_filter (ps : gmap string Position) : gmap string Position :=
  filter (λ kv, is_open kv.2) ps.

(** get_open_positions *)
Definition get_open_positions (self : t) : gmap string Position :=
  open_filter (positions self).

(** _save_positions_to_file: only the open positions are written. *)
Definition _save_positions_to_file (self : t) : t :=
  mkRiskManager (daily_loss_limit self) (max_positions self)
    (positions self) (trade_history_file self) (daily_pnl_file self)
    (open_filter (positions self)).

(** can_open_position *)
Definition can_open_position (self : t) : bool :=
  let active_positions := Z.of_nat (size (open_filter (positions self))) in
  bool_decide (active_positions < max_positions self)%Z.

(** get_daily_pnl *)
Definition get_daily_pnl (self : t) (today : date) : Q :=
  match daily_pnl_file self with
  | None => 0
  | Some data => default 0 (data !! today)
  end.

(** _update_daily_pnl *)
Definition _update_daily_pnl (self : t) (profit_loss : Q) (today : date) : t :=
  let data := default ∅ (daily_pnl_file self) in
  let data := <[today := default 0 (data !! today) + profit_loss]> data in
  mkRiskManager (daily_loss_limit self) (max_positions self)
    (positions self) (trade_history_file self) (Some data)
    (positions_file self).

(** _record_trade: one row appended to the CSV file. *)
Definition _record_trade (self : t) (now : datetime) (market action : string)
    (price quantity amount profit_loss : Q) (status : string) : t :=
  let cumulative_pnl := get_daily_pnl self (date_of now) + profit_loss in
  let row := mkTradeRow now market action price quantity amount
                        profit_loss cumulative_pnl status in
  mkRiskManager (daily_loss_limit self) (max_positions self)
    (positions self) (trade_history_file self ++ [row])
    (daily_pnl_file self) (positions_file self).

Definition set_position (self : t) (market : string) (p : Position) : t :=
  mkRiskManager (daily_loss_limit self) (max_positions self)
    (<[market := p]> (positions self)) (trade_history_file self)
    (daily_pnl_file self) (positions_file self).

Definition has_open (self : t) (market : string) : bool :=
  match positions self !! market with
  | Some p => bool_decide (is_open p)
  | None => false
  end.

(** add_position *)
Definition add_position (self : t) (now : datetime) (market : string)
    (entry_price quantity investment_amount : Q) : bool * t :=
  if negb (can_open_position self) then (false, self)
  else if has_open self market then (false, self)
  else
    let position :=
      Position_init market entry_price quantity now investment_amount in
    let self := set_position self market position in
    let self := _record_trade self now market "BUY" entry_price quantity
                              investment_amount 0 "포지션 진입" in
    let self := _save_positions_to_file self in
    (true, self).

(** close_position *)
Definition close_position (self : t) (now : datetime) (market : string)
    (exit_price : Q) : option Q * t :=
  match positions self !! market with
  | None => (None, self)
  | Some position =>
      if negb (bool_decide (is_open position)) then (None, self)
      else
        let '(position, profit_loss) :=
          Position_close_position position exit_price now in
        let self := set_position self market position in
        let self := _record_trade self now market "SELL" exit_price
                      (quantity position) (quantity position * exit_price)
                      profit_loss "포지션 종료" in
        let self := _update_daily_pnl self profit_loss (date_of now) in
        let self := _save_positions_to_file self in
        (Some profit_loss, self)
  end.

(** get_position_pnl *)
Definition get_position_pnl (self : t) (market : string) (current_price : Q)
  : result (option (Q * Q)) :=
  match positions self !! market with
  | None => Ok None
  | Some position =>
      if negb (bool_decide (is_open position)) then Ok None
      else
        let pnl := calculate_current_pnl position current_price in
        pnl_rate ← calculate_pnl_rate position current_price;
        Ok (Some (pnl, pnl_rate))
  end.

(** The reason strings of should_sell: the f-strings
    "익절 (수익률: ..%)" and "손절 (손실률: ..%)" carry the rate they print;
    [NoReason] is the empty string. *)
Inductive sell_reason :=
| TakeProfit (pnl_rate : Q)
| StopLoss (pnl_rate : Q)
| NoReason.

(** should_sell *)
Definition should_sell (self : t) (market : string) (current_price : Q)
    (profit_rate loss_rate : Q) : result (bool * sell_reason) :=
  pnl_info ← get_position_pnl self market current_price;
  match pnl_info with
  | None => Ok (false, NoReason)
  | Some (pnl, pnl_rate) =>
      let profit_threshold := profit_rate * 100 in
      let loss_threshold := loss_rate * 100 in
      if Qle_bool profit_threshold pnl_rate then
        Ok (true, TakeProfit pnl_rate)
      else if Qle_bool pnl_rate loss_threshold then
        Ok (true, StopLoss pnl_rate)
      else Ok (false, NoReason)
  end.

(** check_daily_loss_limit.  The loop over the positions is the source's:
    its body is [pass], so the accumulator comes back as it went in. *)
Definition check_daily_loss_limit (self : t) (limit : option Q)
    (today : date) : bool :=
  let daily_loss_limit := default (daily_loss_limit self) limit in
  let daily_pnl := get_daily_pnl self today in
  let unrealized_pnl :=
    map_fold (λ (_ : string) (position : Position) (acc : Q),
                if bool_decide (is_open position) then acc else acc)
             0 (positions self) in
  let total_pnl := daily_pnl + unrealized_pnl in
  Qle_bool total_pnl daily_loss_limit.

(** A call of the ledger's public interface, with the clock reading that
    the call sees. *)
Inductive call :=
| AddPosition (now : datetime) (market : string)
              (entry_price quantity investment_amount : Q)
| ClosePosition (now : datetime) (market : string) (exit_price : Q).

Definition call_time (c : call) : datetime :=
  match c with
  | AddPosition now _ _ _ _ => now
  | ClosePosition now _ _ => now
  end.

Definition run_call (self : t) (c : call) : t :=
  match c with
  | AddPosition now m e q a => (add_position self now m e q a).2
  | ClosePosition now m x => (close_position self now m x).2
  end.

Definition run_calls (self : t) (cs : list call) : t :=
  foldl run_call self cs.

(** Sum of the profit_loss column over the SELL rows written on a date. *)
Definition is_sell_on (d : date) (r : TradeRow) : bool :=
  bool_decide (row_action r = "SELL") && bool_decide (date_of (row_timestamp r) = d).

Definition sell_rows_on (d : date) (rows : list TradeRow) : list TradeRow :=
  List.filter (is_sell_on d) rows.

Definition sum_profit_loss (rows : list TradeRow) : Q :=
  foldr (λ r acc, row_profit_loss r + acc) 0 rows.

Definition count_open (self : t) : nat := size (open_filter (positions self)).

End RiskManager.

(** ** config_manager.py *)

Module ConfigManager.

(** The values a setting can hold ([Any]): JSON numbers, strings, booleans,
    [None], and the ISO timestamp written under "last_updated". *)
Inductive value :=
| VNone
| VNum (q : Q)
| VStr (s : string)
| VBool (b : bool)
| VTime (t : datetime).

Definition is_none (v : value) : bool :=
  match v with VNone => true | _ => false end.

(** The configuration file on disk. *)
Inductive file_state :=
| Missing
| Json (content : gmap string value)
| Corrupt.

(** What happens when the file is written: success, [open] raising (the file
    is untouched), or [json.dump] raising after [open] truncated the file. *)
Inductive write_outcome := WriteOk | OpenFails | DumpFails.

Record t := mkConfigManager {
  config_file : file_state;
  default_config : gmap string value;
  config : gmap string value
}.

(** dict.get(key): [None] for a missing key. *)
Definition dict_get (d : gmap string value) (key : string) : value :=
  default VNone (d !! key).

Definition set_config (self : t) (c : gmap string value) : t :=
  mkConfigManager (config_file self) (default_config self) c.

Definition write_file (self : t) (w : write_outcome) (c : gmap string value) : t :=
  match w with
  | WriteOk => mkConfigManager (Json c) (default_config self) (config self)
  | OpenFails => self
  | DumpFails => mkConfigManager Corrupt (default_config self) (config self)
  end.

(** save_config.  With no argument the dictionary stamped with the time is
    [self.config] itself, so the stamp is in memory before the write is
    tried; with an argument the caller's dictionary is stamped and becomes
    [self.config] only when the write succeeds. *)
Definition save_config (self : t) (config_arg : option (gmap string value))
    (now : datetime) (w : write_outcome) : bool * t :=
  let self :=
    match config_arg with
    | None => set_config self (<["last_updated" := VTime now]> (config self))
    | Some _ => self
    end in
  let config :=
    match config_arg with
    | None => config self
    | Some c => <["last_updated" := VTime now]> c
    end in
  let self := write_file self w config in
  match w with
  | WriteOk => (true, set_config self config)
  | _ => (false, self)
  end.

(** get *)
Definition get (self : t) (key : string) (default_value : value) : value :=
  default default_value (config self !! key).

(** set *)
Definition set (self : t) (key : string) (v : value) (now : datetime)
    (w : write_outcome) : bool * t :=
  let old_value := dict_get (config self) key in
  let self := set_config self (<[key := v]> (config self)) in
  let '(ok, self) := save_config self None now w in
  if ok then (true, self)
  else (false, set_config self (<[key := old_value]> (config self))).

(** The backup loop of update_multiple: old_values[key] = config.get(key). *)
Definition backup (cfg updates : gmap string value) : gmap string value :=
  map_imap (λ key _, Some (dict_get cfg key)) updates.

(** The rollback loop of update_multiple:
    for key, old_value in old_values.items():
        if old_value is not None: config[key] = old_value *)
Definition rollback (old_values cfg : gmap string value) : gmap string value :=
  map_fold (λ key old_value cfg,
              if negb (is_none old_value) then <[key := old_value]> cfg
              else cfg)
           cfg old_values.

(** update_multiple *)
Definition update_multiple (self : t) (updates : gmap string value)
    (now : datetime) (w : write_outcome) : bool * t :=
  let old_values := backup (config self) updates in
  let self := set_config self (updates ∪ config self) in
  let '(ok, self) := save_config self None now w in
  if ok then (true, self)
  else (false, set_config self (rollback old_values (config self))).

End ConfigManager.

(** ** trade_utils.py *)

Module TradeUtils.

Local Open Scope Q_scope.

(** What a decorated call does, in order: [Call k] is the k-th attempt (the
    rate limiter's wait followed by the wrapped function), [Sleep s] is
    [time.sleep(s)] of the back-off. *)
Inductive event :=
| Call (attempt : nat)
| Sleep (seconds : Q).

Section ApiRetry.

Context {A : Type}.
Variables (max_retries : Z) (delay_base : Q).
(** The wrapped function's behaviour at each attempt, and the values drawn
    from [random.uniform(0, 1)]. *)
Variables (func : nat → result A) (jitter : nat → Q).

(** The body of [wrapper]: [for attempt in range(max_retries)], with
    [remaining] iterations left. *)
Fixpoint wrapper_loop (remaining attempt : nat)
  : list event * result (option A) :=
  match remaining with
  | O => ([], Ok None)
  | S remaining' =>
      match func attempt with
      | Ok v => ([Call attempt], Ok (Some v))
      | Raise (HTTPError status_code) =>
          if bool_decide (status_code = 429%Z)
             && bool_decide (Z.of_nat attempt < max_retries - 1)%Z
          then
            let delay := delay_base * 2 ^ Z.of_nat attempt + jitter attempt in
            let '(tr, r) := wrapper_loop remaining' (S attempt) in
            (Call attempt :: Sleep delay :: tr, r)
          else ([Call attempt], Raise (HTTPError status_code))
      | Raise e =>
          if bool_decide (Z.of_nat attempt < max_retries - 1)%Z then
            let delay := delay_base * 2 ^ Z.of_nat attempt in
            let '(tr, r) := wrapper_loop remaining' (S attempt) in
            (Call attempt :: Sleep delay :: tr, r)
          else ([Call attempt], Raise e)
      end
  end.

(** api_retry(max_retries, delay_base)(func) *)
Definition api_retry : list event * result (option A) :=
  wrapper_loop (Z.to_nat max_retries) 0.

End ApiRetry.

(** The decorator's defaults: [max_retries = 3], [delay_base = 1.0]. *)
Definition default_max_retries : Z := 3.

(** The exchange as the wrapped functions see it: the outcome of each
    request, per attempt. *)
Record RawTicker := mkRawTicker {
  t_market : string;
  acc_trade_volume_24h : option Q;
  acc_trade_price_24h : option Q;
  t_trade_price : option Q;
  signed_change_rate : option Q;
  prev_closing_price : option Q
}.

Record Exchange := mkExchange {
  ticker_price : string → nat → result (option Q);
  candles : string → nat → result (list Q);
  change_rate_of : string → nat → result (option Q);
  market_all : nat → result (list string);
  tickers : list string → result (list RawTicker)
}.

(** The decorated functions: every one is wrapped with
    [@api_retry(max_retries=3, delay_base=2.0)]. *)
Definition get_current_price (ex : Exchange) (jitter : nat → Q) (market : string)
  : list event * result (option (option Q)) :=
  api_retry 3 2 (ticker_price ex market) jitter.


Definition get_price_change (ex : Exchange) (jitter : nat → Q) (market : string)
  : list event * result (option (option Q)) :=
  api_retry 3 2 (change_rate_of ex market) jitter.

Definition get_tradeable_markets (ex : Exchange) (jitter : nat → Q)
  : list event * result (option (list string)) :=
  api_retry 3 2
    (λ attempt,
       markets ← market_all ex attempt;
       Ok (take 50 (List.filter (String.prefix "KRW-") markets)))
    jitter.

(** One entry of the ranking. *)
Record Ticker := mkTicker {
  market : string;
  trade_volume : Q;
  trade_price : Q;
  current_price : Q;
  change_rate : Q;
  volume_power : Q
}.

(** class MarketAnalyzer: the attribute [api] and the methods it defines.
    [get_current_price] is a method of UpbitAPI, reached as
    [self.api.get_current_price]. *)
Definition MarketAnalyzer_attrs : list string :=
  [ "api"; "detect_volume_spike"; "get_price_change"; "get_tradeable_markets";
    "get_daily_trade_volume_ranking"; "_get_fallback_top_markets" ].

Definition fallback_markets : list string :=
  [ "KRW-BTC"; "KRW-ETH"; "KRW-XRP"; "KRW-ADA"; "KRW-DOGE";
    "KRW-AVAX"; "KRW-DOT"; "KRW-MATIC"; "KRW-SOL"; "KRW-SHIB" ].

(** The slice [l[:limit]], with Python's reading of a negative bound. *)
Definition slice_to {A} (l : list A) (limit : Z) : list A :=
  if bool_decide (0 ≤ limit)%Z then take (Z.to_nat limit) l
  else take (Z.to_nat (Z.of_nat (length l) + limit)) l.

(** Truth value of an [Optional[float]]. *)
Definition truthy (p : option Q) : bool :=
  match p with
  | Some q => negb (Qeq_bool q 0)
  | None => false
  end.

(** _get_fallback_top_markets.  The price is asked of
    [self.get_current_price]; [bound_method] is what that attribute would
    do if the lookup on the MarketAnalyzer instance found it. *)
Definition _get_fallback_top_markets
    (bound_method : string → result (option Q)) (limit : Z) : list Ticker :=
  foldl
    (λ result market,
       match (_ ← getattr "MarketAnalyzer" MarketAnalyzer_attrs
                          "get_current_price";
              bound_method market) with
       | Ok current_price =>
           if truthy current_price
           then result ++ [mkTicker market 0 0 (default 0 current_price) 0 0]
           else result
       | Raise _ => result
       end)
    [] (slice_to fallback_markets limit).

Definition to_ticker (t : RawTicker) : Ticker :=
  mkTicker (t_market t)
    (default 0 (acc_trade_volume_24h t))
    (default 0 (acc_trade_price_24h t))
    (default 0 (t_trade_price t))
    (default 0 (signed_change_rate t))
    (default 0 (acc_trade_volume_24h t)
       / Qmax (default 1 (prev_closing_price t)) 1).

(** [sort(key=trade_price, reverse=True)]: stable, descending. *)
Fixpoint insert_desc (x : Ticker) (l : list Ticker) : list Ticker :=
  match l with
  | [] => [x]
  | y :: l' =>
      if Qle_bool (trade_price x) (trade_price y) then y :: insert_desc x l'
      else x :: y :: l'
  end.

Definition sort_desc (l : list Ticker) : list Ticker :=
  foldl (λ acc x, insert_desc x acc) [] l.

(** The [try] block of get_daily_trade_volume_ranking. *)
Definition ranking_body (ex : Exchange) (attempt : nat) (limit : Z)
  : result (list Ticker) :=
  all_markets ← market_all ex attempt;
  let krw_markets := List.filter (String.prefix "KRW-") all_markets in
  raw ← tickers ex (take 100 krw_markets);
  let krw_tickers :=
    to_ticker <$>
      List.filter (λ t, String.prefix "KRW-" (t_market t)
                        && negb (Qle_bool (default 0 (acc_trade_price_24h t)) 0))
                  raw in
  Ok (slice_to (sort_desc krw_tickers) limit).

(** get_daily_trade_volume_ranking: any exception of the [try] block is
    caught inside the function, so the retry wrapper never sees one. *)
Definition get_daily_trade_volume_ranking (ex : Exchange) (jitter : nat → Q)
    (bound_method : string → result (option Q)) (limit : Z)
  : list event * result (option (list Ticker)) :=
  api_retry 3 2
    (λ attempt,
       match ranking_body ex attempt limit with
       | Ok top_markets => Ok top_markets
       | Raise _ => Ok (_get_fallback_top_markets bound_method limit)
       end)
    jitter.

(** Trace observations. *)
Definition calls (tr : list event) : list nat :=
  omap (λ ev, match ev with Call k => Some k | Sleep _ => None end) tr.

Definition sleeps (tr : list event) : list Q :=
  omap (λ ev, match ev with Sleep s => Some s | Call _ => None end) tr.

End TradeUtils.

(** ** Reading a retry trace *)

Module RetrySpec.

Import TradeUtils.
Local Open Scope Q_scope.

(** Whether the wrapper goes on to another attempt after exception [e] at
    [attempt]: a 429 or an exception that is not an HTTP error, and not the
    last attempt. *)
Definition retried (max_retries : Z) (e : exn) (attempt : nat) : bool :=
  match e with
  | HTTPError status_code =>
      bool_decide (status_code = 429%Z)
      && bool_decide (Z.of_nat attempt < max_retries - 1)%Z
  | _ => bool_decide (Z.of_nat attempt < max_retries - 1)%Z
  end.

(** The pause before the next attempt. *)
Definition backoff (delay_base : Q) (jitter : nat → Q) (e : exn)
    (attempt : nat) : Q :=
  match e with
  | HTTPError _ => delay_base * 2 ^ Z.of_nat attempt + jitter attempt
  | _ => delay_base * 2 ^ Z.of_nat attempt
  end.



(** An exchange that is rate-limited twice, then answers. *)
Definition limited_exchange : Exchange :=
  mkExchange
    (λ _ attempt, match attempt with
                  | O | 1%nat => Raise (HTTPError 429)
                  | _ => Ok (Some 100)
                  end)
    (λ _ _, Ok []) (λ _ _, Ok None) (λ _, Ok []) (λ _, Ok []).

(** An exchange on which the market list cannot be fetched while the ticker
    answers 5,000 for every market. *)
Definition outage_exchange : Exchange :=
  mkExchange
    (λ _ _, Ok (Some 5000))
    (λ _ _, Ok []) (λ _ _, Ok None)
    (λ _, Raise ConnectionError) (λ _, Ok []).

End RetrySpec.

(** ** ai_performance_tracker.py *)

Module AIPerformanceTracker.

Local Open Scope Q_scope.

(** A row of the table ai_recommendations: the key, the columns the
    functions below read or write, and the outcome block. *)
Record Row := mkRow {
  id : Z;
  timestamp : datetime;
  market : string;
  recommended_coin : string;
  confidence : Z;
  executed : bool;
  execution_price : option Q;
  exit_price : option Q;
  exit_timestamp : option datetime;
  actual_return : option Q;
  holding_days : option Z;
  success : option bool
}.

(** UPDATE ai_recommendations SET ... WHERE id = ? *)
Definition update_where_id (table : list Row) (rid : Z) (f : Row → Row)
  : list Row :=
  (λ r, if bool_decide (id r = rid) then f r else r) <$> table.

Definition set_execution (execution_price : option Q) (r : Row) : Row :=
  mkRow (id r) (timestamp r) (market r) (recommended_coin r) (confidence r)
        true execution_price (exit_price r) (exit_timestamp r)
        (actual_return r) (holding_days r) (success r).

Definition set_exit (execution_price : option Q) (exit_price : Q)
    (exit_timestamp : option datetime) (actual_return : Q) (holding_days : Z)
    (success : bool) (r : Row) : Row :=
  mkRow (id r) (timestamp r) (market r) (recommended_coin r) (confidence r)
        true execution_price (Some exit_price) exit_timestamp
        (Some actual_return) (Some holding_days) (Some success).

(** [exit_price - execution_price] and the division, on Python values:
    a [None] operand raises TypeError, a zero divisor ZeroDivisionError. *)
Definition compute_actual_return (exit_price : Q) (execution_price : option Q)
  : result Q :=
  match execution_price with
  | None =>
      Raise (TypeError "unsupported operand type(s) for -: 'float' and 'NoneType'")
  | Some execution_price =>
      if Qeq_bool execution_price 0 then Raise ZeroDivisionError
      else Ok (((exit_price - execution_price) / execution_price) * 100)
  end.

(** update_recommendation_result.  The statements run inside
    [with sqlite3.connect(...)], which commits when the block ends and rolls
    back when it raises; the [except] clause then answers False. *)
Definition update_recommendation_result (table : list Row)
    (recommendation_id : Z) (execution_price exit_price : option Q)
    (exit_timestamp : option datetime) (now : datetime) : bool * list Row :=
  match exit_price with
  | None =>
      (true, update_where_id table recommendation_id
               (set_execution execution_price))
  | Some exit_price =>
      match compute_actual_return exit_price execution_price with
      | Raise _ => (false, table)
      | Ok actual_return =>
          let success := negb (Qle_bool actual_return 0) in
          let row := List.find (λ r, bool_decide (id r = recommendation_id))
                               table in
          let holding_days :=
            match row with
            | Some row =>
                let start_time := timestamp row in
                let end_time := default now exit_timestamp in
                days_between end_time start_time
            | None => 0%Z
            end in
          (true, update_where_id table recommendation_id
                   (set_exit execution_price exit_price exit_timestamp
                             actual_return holding_days success))
      end
  end.

(** ORDER BY timestamp DESC *)
Fixpoint insert_recent (x : Row) (l : list Row) : list Row :=
  match l with
  | [] => [x]
  | y :: l' =>
      if bool_decide (timestamp x ≤ timestamp y)%Z then y :: insert_recent x l'
      else x :: y :: l'
  end.

Definition order_by_timestamp_desc (table : list Row) : list Row :=
  foldl (λ acc x, insert_recent x acc) [] table.

(** get_recent_recommendations *)
Definition get_recent_recommendations (table : list Row) (limit : nat)
  : list Row :=
  take limit (order_by_timestamp_desc table).

(** SELECT id FROM ai_recommendations
    WHERE market = ? AND executed = 1 AND exit_price IS NULL
    ORDER BY timestamp DESC LIMIT 1 *)
Definition select_open_recommendation (table : list Row) (m : string)
  : option Z :=
  id <$> head (order_by_timestamp_desc
                 (List.filter (λ r, bool_decide (market r = m) && executed r
                                    && bool_decide (exit_price r = None))
                              table)).

(** One invocation of update_recommendation_result, by its arguments. *)
Record Invocation := mkInvocation {
  arg_id : Z;
  arg_execution_price : option Q;
  arg_exit_price : option Q;
  arg_exit_timestamp : option datetime
}.

(** CoinButler._update_ai_recommendation_exit (trade_bot.py): the loop over
    the recent recommendations, which stops at the first update it tries.
    The invocations of update_recommendation_result are returned with the
    table. *)
Fixpoint exit_update_loop (table : list Row) (m : string) (exit_price : Q)
    (now : datetime) (recent_recs : list Row) : list Row * list Invocation :=
  match recent_recs with
  | [] => (table, [])
  | rec :: rest =>
      if bool_decide (market rec = m) && executed rec
         && bool_decide (actual_return rec = None)
      then
        match select_open_recommendation table m with
        | Some recommendation_id =>
            let '(_, table') :=
              update_recommendation_result table recommendation_id
                None (Some exit_price) (Some now) now in
            (table',
             [mkInvocation recommendation_id None (Some exit_price) (Some now)])
        | None => exit_update_loop table m exit_price now rest
        end
      else exit_update_loop table m exit_price now rest
  end.

Definition _update_ai_recommendation_exit (table : list Row) (m : string)
    (exit_price : Q) (now : datetime) : list Row * list Invocation :=
  exit_update_loop table m exit_price now
    (get_recent_recommendations table 50).

(** A table with one recommendation that was bought at 1,000. *)
Definition table_one : list Row :=
  [ mkRow 1 86400 "KRW-BTC" "BTC" 8 true (Some 1000) None None None None None ].

End AIPerformanceTracker.

(** ** trade_bot.py: class CoinButler *)

Module TradeBot.

Local Open Scope Q_scope.

(** Python values that reach the paths below: [None], a boolean, a float, a
    string. *)
Inductive pyval :=
| PNone
| PBool (b : bool)
| PFloat (q : Q)
| PStr (s : string).

(** Truth value, as [if v:] tests it. *)
Definition truth (v : pyval) : bool :=
  match v with
  | PNone => false
  | PBool b => b
  | PFloat q => negb (Qeq_bool q 0)
  | PStr s => negb (bool_decide (s = ""))
  end.

(** float(v) *)
Definition float_of (v : pyval) : result Q :=
  match v with
  | PFloat q => Ok q
  | PBool b => Ok (if b then 1 else 0)
  | PStr s => Raise (ValueError "could not convert string to float")
  | PNone => Raise (TypeError "float() argument must be a string or a real number")
  end.

(** The names bound at the top level of trade_bot.py: its imports, its
    functions and classes, its module variables. *)
Definition module_globals : list string :=
  [ "os"; "time"; "logging"; "json"; "np"; "datetime"; "timedelta";
    "List"; "Dict"; "Optional"; "genai"; "load_dotenv";
    "UpbitAPI"; "MarketAnalyzer"; "get_upbit_api";
    "RiskManager"; "get_risk_manager"; "get_market_data_collector";
    "get_ai_performance_tracker"; "AIRecommendation"; "get_config_manager";
    "start_trading_scheduler"; "stop_trading_scheduler";
    "get_trading_scheduler"; "init_notifier"; "notify_buy"; "notify_sell";
    "setup_integrated_logging"; "logger"; "log_level";
    "AIAnalyzer"; "CoinButler"; "_bot"; "get_bot"; "main" ].

Definition lookup_global (name : string) : result unit :=
  if bool_decide (name ∈ module_globals) then Ok tt
  else Raise (NameError name).

(** The reason handed to a sell: the text of should_sell, or a literal. *)
Inductive reason :=
| RiskReason (r : RiskManager.sell_reason)
| Text (s : string).

(** The answer of the exchange to an order query. *)
Record OrderInfo := mkOrderInfo {
  state : option string;
  executed_volume : option Q;
  avg_price : option Q
}.

(** The exchange as the bot sees it.  The order calls catch their own
    exceptions and answer [None]; the price call is the decorated one and may
    raise when its retries are used up. *)
Record Exchange := mkExchange {
  place_sell_order : string → Q → option string;
  place_buy_order : string → Q → option string;
  get_order_info : string → nat → option OrderInfo;
  get_current_price : string → result (option Q)
}.

(** An entry of the list of loss-cut candidates. *)
Record LosingPosition := mkLosingPosition {
  lp_market : string;
  lp_entry_price : Q;
  lp_current_price : Q;
  lp_pnl_rate : Q;
  lp_pnl : Q;
  lp_entry_time : datetime;
  lp_days_held : Z
}.

(** What the bot does to the outside world. *)
Inductive event :=
| PlaceSellOrder (market : string) (volume : Q)
| PlaceBuyOrder (market : string) (amount : Q)
| NotifySell (market : string) (price amount profit_loss profit_rate : Q)
             (why : reason)
| NotifyRebalancing (sell_market buy_market : string) (why : reason)
                    (expected_profit : Q)
| AnalyzePositionSwap (losing_positions : list LosingPosition)
| Sleep (seconds : Z).

(** The bot: its ledger, the tracker's table, the analyzer ([None] when no
    key is configured, otherwise its [enabled] flag) and the attribute
    [last_swap_check], which __init__ does not create. *)
Record t := mkBot {
  risk_manager : RiskManager.t;
  tracker : list AIPerformanceTracker.Row;
  ai_analyzer : option bool;
  last_swap_check : option datetime
}.

Definition set_risk_manager (self : t) (rm : RiskManager.t) : t :=
  mkBot rm (tracker self) (ai_analyzer self) (last_swap_check self).

Definition set_tracker (self : t) (tb : list AIPerformanceTracker.Row) : t :=
  mkBot (risk_manager self) tb (ai_analyzer self) (last_swap_check self).

Definition set_last_swap_check (self : t) (now : datetime) : t :=
  mkBot (risk_manager self) (tracker self) (ai_analyzer self) (Some now).

(** The order query of a sell or a buy: one query after 3 seconds, and a
    second one after 5 more when the first says 'wait'. *)
Definition await_order (ex : Exchange) (uuid : string)
  : option OrderInfo * list event :=
  match get_order_info ex uuid 0 with
  | Some order_info =>
      if bool_decide (state order_info = Some "wait")
      then (get_order_info ex uuid 1, [Sleep 3; Sleep 5])
      else (Some order_info, [Sleep 3])
  | None => (None, [Sleep 3])
  end.

(** is_filled = order_info and (state == 'done' or executed_volume > 0) *)
Definition is_filled (order_info : option OrderInfo) : bool :=
  match order_info with
  | Some oi =>
      bool_decide (state oi = Some "done")
      || negb (Qle_bool (default 0 (executed_volume oi)) 0)
  | None => false
  end.

(** _execute_sell.  Each way out of the function is a bare [return], the
    end of the body, or the [except] clause: the value is [None]. *)
Definition _execute_sell (self : t) (ex : Exchange) (now : datetime)
    (market : string) (current_price : pyval) (why : reason)
  : pyval * t * list event :=
  match RiskManager.positions (risk_manager self) !! market with
  | None => (PNone, self, [])
  | Some position =>
      if negb (bool_decide (RiskManager.is_open position))
      then (PNone, self, [])
      else
        let quantity := RiskManager.quantity position in
        match place_sell_order ex market quantity with
        | None => (PNone, self, [PlaceSellOrder market quantity])
        | Some uuid =>
            let '(order_info, waits) := await_order ex uuid in
            let events := PlaceSellOrder market quantity :: waits in
            if is_filled order_info then
              let avg_price_arg :=
                match order_info ≫= avg_price with
                | Some p => PFloat p
                | None => current_price
                end in
              match float_of avg_price_arg with
              | Raise _ => (PNone, self, events)
              | Ok avg_price =>
                  let '(profit_loss, rm) :=
                    RiskManager.close_position (risk_manager self) now market
                                               avg_price in
                  let self := set_risk_manager self rm in
                  match profit_loss with
                  | Some profit_loss =>
                      let invested := RiskManager.investment_amount position in
                      if Qeq_bool invested 0 then (PNone, self, events)
                      else
                        let profit_rate := (profit_loss / invested) * 100 in
                        let events :=
                          events ++ [NotifySell market avg_price
                                       (quantity * avg_price) profit_loss
                                       profit_rate why] in
                        let tb :=
                          (AIPerformanceTracker._update_ai_recommendation_exit
                             (tracker self) market avg_price now).1 in
                        (PNone, set_tracker self tb, events)
                  | None => (PNone, self, events)
                  end
              end
            else (PNone, self, events)
        end
  end.

(** The new opportunity of a rebalancing decision: the dictionary returned
    by the opportunity search. *)
Record BuyAnalysis := mkBuyAnalysis {
  ba_market : option string;
  ba_recommended_coin : option string;
  ba_expected_profit : option Q
}.

Record Decision := mkDecision {
  sell_market : string;
  sell_reason : string;
  buy_analysis : option BuyAnalysis
}.

(** [self._execute_buy(buy_market, buy_analysis, settings)]: the method is
    defined as [_execute_buy(self, candidate, settings)], so the call with
    three arguments raises before the body runs. *)
Definition _execute_buy_three_arguments : result pyval :=
  Raise (TypeError "_execute_buy() takes 3 positional arguments but 4 were given").

Definition str_truth (s : string) : bool := negb (bool_decide (s = "")).

(** buy_analysis.get('market') or buy_analysis.get('recommended_coin', ''),
    with the KRW- prefix added when it is missing. *)
Definition rebalancing_buy_market (ba : BuyAnalysis) : string :=
  let m :=
    match ba_market ba with
    | Some m => if str_truth m then m else default "" (ba_recommended_coin ba)
    | None => default "" (ba_recommended_coin ba)
    end in
  if str_truth m && negb (String.prefix "KRW-" m) then "KRW-" +:+ m else m.

(** _execute_rebalancing *)
Definition _execute_rebalancing (self : t) (ex : Exchange) (now : datetime)
    (decision : Decision) : t * list event :=
  let '(success, self, events) :=
    _execute_sell self ex now (sell_market decision) (PStr "REBALANCING")
                  (Text (sell_reason decision)) in
  match buy_analysis decision with
  | Some ba =>
      if truth success then
        let events := events ++ [Sleep 1] in
        let buy_market := rebalancing_buy_market ba in
        if str_truth buy_market then
          match _execute_buy_three_arguments with
          | Raise _ => (self, events)
          | Ok buy_success =>
              if truth buy_success then
                (self,
                 events ++ [NotifyRebalancing (sell_market decision) buy_market
                              (Text (sell_reason decision))
                              (default 0 (ba_expected_profit ba))])
              else (self, events)
          end
        else (self, events)
      else (self, events)
  | None => (self, events)
  end.

Record Settings := mkSettings {
  profit_rate : Q;
  loss_rate : Q
}.

(** The body of the loop of _manage_positions for one open position.  The
    early exits are the [continue], and the [except] clause of the [try]
    that wraps the body. *)
Definition manage_position (ex : Exchange) (now : datetime)
    (settings : Settings)
    (acc : t * list LosingPosition * list event)
    (entry : string * RiskManager.Position)
  : t * list LosingPosition * list event :=
  let '(self, losing_positions, events) := acc in
  let '(market, position) := entry in
  match get_current_price ex market with
  | Raise _ => acc
  | Ok None => acc
  | Ok (Some current_price) =>
      if Qeq_bool current_price 0 then acc
      else
        match RiskManager.should_sell (risk_manager self) market current_price
                (profit_rate settings) (loss_rate settings) with
        | Raise _ => acc
        | Ok (true, why) =>
            let '(_, self, evs) :=
              _execute_sell self ex now market (PFloat current_price)
                            (RiskReason why) in
            (self, losing_positions, events ++ evs)
        | Ok (false, _) =>
            match RiskManager.get_position_pnl (risk_manager self) market
                    current_price with
            | Raise _ => acc
            | Ok None => acc
            | Ok (Some (pnl, pnl_rate)) =>
                if negb (Qle_bool (-5) pnl_rate) then
                  (* position.get('entry_time', ...) *)
                  match getattr "Position" RiskManager.Position_attrs "get" with
                  | Raise _ => acc
                  | Ok _ =>
                      let entry_time := RiskManager.entry_time position in
                      let days_held := days_between now entry_time in
                      if bool_decide (1 ≤ days_held)%Z then
                        (* position['entry_price'], inside try/except: pass *)
                        match getattr "Position" RiskManager.Position_attrs
                                      "__getitem__" with
                        | Raise _ => acc
                        | Ok _ =>
                            (self,
                             losing_positions ++
                               [mkLosingPosition market
                                  (RiskManager.entry_price position)
                                  current_price pnl_rate pnl entry_time
                                  days_held],
                             events)
                        end
                      else acc
                  end
                else acc
            end
        end
  end.

(** The [for] loop of _manage_positions, over the open positions read at
    its start. *)
Definition collect_losing_positions (self : t) (ex : Exchange)
    (now : datetime) (settings : Settings)
  : t * list LosingPosition * list event :=
  foldl (manage_position ex now settings) (self, [], [])
        (map_to_list (RiskManager.get_open_positions (risk_manager self))).

(** _analyze_position_swap: its first statement calls the name
    [get_tradeable_markets], which trade_bot.py neither defines nor imports;
    the NameError is caught by the function's own [except].  [rest] stands
    for the statements after it. *)
Definition _analyze_position_swap (rest : t → t * list event) (self : t)
    (losing_positions : list LosingPosition) : t * list event :=
  match lookup_global "get_tradeable_markets" with
  | Raise _ => (self, [AnalyzePositionSwap losing_positions])
  | Ok _ =>
      let '(self, events) := rest self in
      (self, AnalyzePositionSwap losing_positions :: events)
  end.

(** _manage_positions *)
Definition _manage_positions (rest : t → t * list event) (self : t)
    (ex : Exchange) (now : datetime) (settings : Settings)
  : t * list event :=
  let '(self, losing_positions, events) :=
    collect_losing_positions self ex now settings in
  let due :=
    match last_swap_check self with
    | Some last => bool_decide (300 < now - last)%Z
    | None => false
    end in
  if negb (bool_decide (losing_positions = []))
     && bool_decide (ai_analyzer self = Some true) && due
  then
    let '(self, evs) := _analyze_position_swap rest self losing_positions in
    (set_last_swap_check self now, events ++ evs)
  else
    match last_swap_check self with
    | None => (set_last_swap_check self now, events)
    | Some _ => (self, events)
    end.

Definition is_buy_or_rebalancing (ev : event) : bool :=
  match ev with
  | PlaceBuyOrder _ _ | NotifyRebalancing _ _ _ _ => true
  | _ => false
  end.

Definition is_swap_analysis (ev : event) : bool :=
  match ev with
  | AnalyzePositionSwap _ => true
  | _ => false
  end.

End TradeBot.

(** ** Scenarios for the rebalancing paths *)

Module Scenario.

Import TradeBot.
Local Open Scope Q_scope.

(** A ledger holding 30 units of KRW-BTC bought at 1,000 at time 0. *)
Definition ledger_btc : RiskManager.t :=
  (RiskManager.add_position
     (RiskManager.mkRiskManager (-50000) 3 ∅ [] None ∅)
     0 "KRW-BTC" 1000 30 30000).2.

(** The bot with that ledger, the analyzer enabled, and a swap check made
    at time 0. *)
Definition bot_btc : TradeBot.t :=
  mkBot ledger_btc [] (Some true) (Some 0%Z).

(** An exchange on which every order is accepted and filled at [price],
    which is also the current price of every market. *)
Definition filling_exchange (price : Q) : Exchange :=
  mkExchange
    (λ _ _, Some "uuid-sell")
    (λ _ _, Some "uuid-buy")
    (λ _ _, Some (mkOrderInfo (Some "done") (Some 30) (Some price)))
    (λ _, Ok (Some price)).

(** Thirteen hours later the analyzer expects a loss on KRW-BTC and the
    opportunity search proposes KRW-ETH. *)
Definition decision_btc_to_eth : Decision :=
  mkDecision "KRW-BTC" "AI forecast: -3.5% over the next hours"
             (Some (mkBuyAnalysis (Some "KRW-ETH") None (Some 5))).

(** Two days later KRW-BTC trades at 900, a loss of 10%, and the stop-loss
    is configured at -20%. *)
Definition settings_wide : Settings := mkSettings (3 # 100) (- (20 # 100)).

End Scenario.

(** ** Ledgers, call sequences and configurations used as examples, and the
    predicates the properties are stated with *)

Module LedgerSpec.

Import RiskManager.
Local Open Scope Q_scope.

(** A ledger holding one open position: 0.3 units bought at 100,000. *)
Definition ledger_one : RiskManager.t :=
  (add_position (mkRiskManager (-50000) 3 ∅ [] None ∅) 1000%Z "KRW-BTC"
                100000 (3 # 10) 30000).2.

(** Three positions open under a cap of three. *)
Definition ledger_full : RiskManager.t :=
  let s0 := mkRiskManager (-50000) 3 ∅ [] None ∅ in
  let s1 := (add_position s0 1000 "KRW-BTC" 100000 (3 # 10) 30000).2 in
  let s2 := (add_position s1 1010 "KRW-ETH" 5000 6 30000).2 in
  (add_position s2 1020 "KRW-XRP" 600 50 30000).2.

(** The identity between the two records of realized profit, for one date. *)
Definition books_agree (rm : RiskManager.t) (d : date) : Prop :=
  get_daily_pnl rm d == sum_profit_loss (sell_rows_on d (trade_history_file rm)).

(** One day of trading: two buys, a close at a gain, a close of a market that
    is not held, a close at a loss. *)
Definition day_one_calls : list call :=
  [ AddPosition 86400 "KRW-BTC" 1000 30 30000;
    AddPosition 86460 "KRW-ETH" 500 40 20000;
    ClosePosition 90000 "KRW-BTC" 1031;
    ClosePosition 90060 "KRW-SOL" 10;
    ClosePosition 100000 "KRW-ETH" 480 ].

(** The realized results of a day's closed trades, booked one after the
    other with [_update_daily_pnl]. *)
Definition book_trades (rm : RiskManager.t) (d : date) (pnls : list Q)
  : RiskManager.t :=
  foldl (λ s pl, _update_daily_pnl s pl d) rm pnls.


End LedgerSpec.

Module ConfigSpec.

Import ConfigManager.

(** A configuration with two of the trading settings, saved at time 100. *)
Definition config_two : ConfigManager.t :=
  let c : gmap string value :=
    <["max_positions" := VNum 3]>
      (<["profit_rate" := VNum (3 # 100)]>
         (<["last_updated" := VTime 100]> ∅)) in
  mkConfigManager (Json c) c c.

(** An update of a setting that exists and of one that does not. *)
Definition updates_two : gmap string value :=
  <["profit_rate" := VNum (5 # 100)]> (<["min_trade_amount" := VNum 100]> ∅).

End ConfigSpec.

Module BotSpec.

Import TradeBot.

(** An event that is neither a buy, nor a rebalancing notice, nor the start
    of a swap analysis. *)
Definition quiet (ev : event) : Prop :=
  is_buy_or_rebalancing ev = false ∧ is_swap_analysis ev = false.

End BotSpec.

(** ** risk_manager.py: start-up and statistics *)

Module LedgerFiles.

Import RiskManager.
Local Open Scope Q_scope.

(** One entry of positions.json read back: a position is rebuilt from the
    five constructor fields when its status is 'open'. *)
Definition restore_entry (pos_data : Position) : option Position :=
  if bool_decide (status pos_data = "open") then
    Some (Position_init (market pos_data) (entry_price pos_data)
            (quantity pos_data) (entry_time pos_data)
            (investment_amount pos_data))
  else None.

(** _restore_positions_from_file *)
Definition _restore_positions_from_file (self : t) : t :=
  mkRiskManager (daily_loss_limit self) (max_positions self)
    (omap restore_entry (positions_file self) ∪ positions self)
    (trade_history_file self) (daily_pnl_file self) (positions_file self).

(** RiskManager.__init__, on the three files found on disk. *)
Definition init (daily_loss_limit : Q) (max_positions : Z)
    (trade_history : list TradeRow) (daily_pnl : option (gmap date Q))
    (positions_json : gmap string Position) : t :=
  _restore_positions_from_file
    (mkRiskManager daily_loss_limit max_positions ∅ trade_history daily_pnl
                   positions_json).

(** A new process started on the files a ledger leaves behind. *)
Definition restart (self : t) : t :=
  init (daily_loss_limit self) (max_positions self) (trade_history_file self)
       (daily_pnl_file self) (positions_file self).

(** get_trading_stats: the dictionary it returns; the last three keys are
    missing when there is no SELL row in the window. *)
Record Stats := mkStats {
  total_trades : Z;
  total_pnl : Q;
  win_rate : Q;
  winning_trades : option Z;
  losing_trades : option Z;
  avg_profit : option Q
}.

Definition empty_stats : Stats := mkStats 0 0 0 None None None.

Definition is_win (r : TradeRow) : bool := negb (Qle_bool (row_profit_loss r) 0).

(** get_trading_stats(days), at time [now]. *)
Definition get_trading_stats (self : t) (now : datetime) (days : Z) : Stats :=
  let df := trade_history_file self in
  match df with
  | [] => empty_stats
  | _ =>
      let cutoff_date := (now - days * 86400)%Z in
      let df := List.filter (λ r, bool_decide (cutoff_date ≤ row_timestamp r)%Z)
                            df in
      let sell_trades := List.filter (λ r, bool_decide (row_action r = "SELL"))
                                     df in
      match sell_trades with
      | [] => empty_stats
      | _ =>
          let total_trades := Z.of_nat (length sell_trades) in
          let total_pnl := sum_profit_loss sell_trades in
          let winning_trades :=
            Z.of_nat (length (List.filter is_win sell_trades)) in
          let win_rate := inject_Z winning_trades / inject_Z total_trades * 100 in
          mkStats total_trades total_pnl win_rate (Some winning_trades)
                  (Some (total_trades - winning_trades)%Z)
                  (Some (total_pnl / inject_Z total_trades))
      end
  end.

(** A ledger as a new process finds it when no file exists. *)
Definition fresh (daily_loss_limit : Q) (max_positions : Z) : t :=
  init daily_loss_limit max_positions [] None ∅.

(** Every position recorded as open is as its constructor left it, under
    its own market name. *)
Definition open_as_created (self : t) : Prop :=
  ∀ m p, positions self !! m = Some p → is_open p →
         p = Position_init m (entry_price p) (quantity p) (entry_time p)
                           (investment_amount p).

(** The snapshot file holds exactly the open positions. *)
Definition snapshot_current (self : t) : Prop :=
  positions_file self = get_open_positions self.

End LedgerFiles.

(** ** config_manager.py: construction, loading and reset *)

Module ConfigStore.

Import ConfigManager.

(** The default settings of __init__; "last_updated" is the time of
    construction. *)
Definition default_settings (now : datetime) : gmap string value :=
  list_to_map
    [ ("min_balance_for_buy", VNum 30000);
      ("investment_amount", VNum 30000);
      ("max_positions", VNum 3);
      ("profit_rate", VNum (3 # 100));
      ("loss_rate", VNum (- (2 # 100)));
      ("volume_spike_threshold", VNum 2);
      ("price_change_threshold", VNum (5 # 100));
      ("check_interval", VNum 60);
      ("market_scan_interval", VNum 10);
      ("daily_loss_limit", VNum (-50000));
      ("ai_confidence_threshold", VNum 7);
      ("last_updated", VTime now) ].

Definition set_default_config (self : t) (d : gmap string value) : t :=
  mkConfigManager (config_file self) d (config self).

(** load_config.  With no file the defaults are saved first: the dictionary
    handed to save_config is [self.default_config] itself, so the time stamp
    lands in it whether or not the write succeeds.  A file that cannot be
    parsed gives the defaults. *)
Definition load_config (self : t) (now : datetime) (w : write_outcome)
  : gmap string value * t :=
  match config_file self with
  | Json config => (config ∪ default_config self, self)
  | Missing =>
      let '(_, self) := save_config self (Some (default_config self)) now w in
      let stamped := <["last_updated" := VTime now]> (default_config self) in
      (stamped, set_default_config self stamped)
  | Corrupt => (default_config self, self)
  end.

(** ConfigManager.__init__ at time [created], on the file found on disk;
    [now] and [w] are the time and the outcome of the write that load_config
    makes when there is no file. *)
Definition init (file : file_state) (created now : datetime)
    (w : write_outcome) : t :=
  let self := mkConfigManager file (default_settings created) ∅ in
  let '(loaded, self) := load_config self now w in
  set_config self loaded.

(** reset_to_default: a copy of the defaults is saved. *)
Definition reset_to_default (self : t) (now : datetime) (w : write_outcome)
  : bool * t :=
  save_config self (Some (default_config self)) now w.

End ConfigStore.

(** ** trade_utils.py: rate limiter, balances, volume spike *)

Module TradeUtilsMore.

Import TradeUtils.
Local Open Scope Q_scope.

(** class RateLimiter.  Time is the reading of [time.time()]; a sleep moves
    it on by the time slept. *)
Record RateLimiter := mkRateLimiter {
  calls_per_second : Z;
  last_call_time : Q;
  call_interval : Q
}.

(** RateLimiter.__init__: 1.0 / calls_per_second raises for 0. *)
Definition RateLimiter_init (calls_per_second : Z) : result RateLimiter :=
  if bool_decide (calls_per_second = 0%Z) then Raise ZeroDivisionError
  else Ok (mkRateLimiter calls_per_second 0 (1 / inject_Z calls_per_second)).

(** wait_if_needed at clock reading [clock]: the limiter afterwards, the
    clock afterwards and the time slept. *)
Definition wait_if_needed (self : RateLimiter) (clock : Q)
  : RateLimiter * Q * Q :=
  let current_time := clock in
  let time_since_last_call := current_time - last_call_time self in
  let wait_time :=
    if negb (Qle_bool (call_interval self) time_since_last_call)
    then call_interval self - time_since_last_call
    else 0 in
  let clock := clock + wait_time in
  (mkRateLimiter (calls_per_second self) clock (call_interval self),
   clock, wait_time).

(** One entry of the account list. *)
Record Account := mkAccount {
  currency : string;
  balance : Q;
  avg_buy_price : option Q
}.

(** get_coin_balance (get_krw_balance is the case 'KRW'): the balance of
    the first account in that currency, 0.0 when there is none.  The account
    query answers the empty list when it fails. *)
Definition get_coin_balance (accounts : list Account) (c : string) : Q :=
  match List.find (λ a, bool_decide (currency a = c)) accounts with
  | Some a => balance a
  | None => 0
  end.

Definition get_krw_balance (accounts : list Account) : Q :=
  get_coin_balance accounts "KRW".



(** Descending order of the ranking. *)
Definition ranked_before (a b : Ticker) : Prop :=
  trade_price b <= trade_price a.

End TradeUtilsMore.

(** Exchanges used as examples. *)
Module MarketScenario.

Import TradeUtils TradeUtilsMore.
Local Open Scope Q_scope.

(** An exchange that lists three markets, one of them not in KRW, and whose
    latest candle of every market traded 90 units after four candles of 10,
    20, 30 and 40. *)
Definition listing_exchange : Exchange :=
  mkExchange
    (λ _ _, Ok (Some 100))
    (λ _ _, Ok [90; 10; 20; 30; 40; 50])
    (λ _ _, Ok None)
    (λ _, Ok ["KRW-BTC"; "BTC-ETH"; "KRW-ETH"])
    (λ _, Ok []).

End MarketScenario.

(** ** ai_performance_tracker.py: reading the table *)

Module TrackerSpec.

Import AIPerformanceTracker.
Local Open Scope Q_scope.

(** Newest first. *)
Definition newer_first (a b : Row) : Prop := (timestamp b ≤ timestamp a)%Z.

(** The primary key: no two rows share an id. *)
Definition unique_ids (table : list Row) : Prop := NoDup (id <$> table).

(** Two recommendations, for KRW-BTC and KRW-ETH, neither executed yet. *)
Definition table_two : list Row :=
  [ mkRow 1 86400 "KRW-BTC" "BTC" 8 false None None None None None None;
    mkRow 2 90000 "KRW-ETH" "ETH" 7 false None None None None None None ].

End TrackerSpec.

(** ** trade_bot.py: buying, and the 12-hour rebalancing check *)

Module TradeBotMore.

Import TradeBot.
Local Open Scope Q_scope.

(** The candidate handed to _execute_buy. *)
Record Candidate := mkCandidate {
  c_market : string;
  c_current_price : Q;
  c_recommendation_id : option Z
}.

Record BuySettings := mkBuySettings {
  min_balance_for_buy : Q;
  investment_amount : Q;
  max_positions : Z
}.

Inductive buy_event :=
| PlaceBuy (market : string) (amount : Q)
| NotifyBuy (market : string) (price amount : Q)
| Wait (seconds : Z).

Definition buy_waits (ex : Exchange) (uuid : string)
  : option OrderInfo * list buy_event :=
  match get_order_info ex uuid 0 with
  | Some order_info =>
      if bool_decide (state order_info = Some "wait")
      then (get_order_info ex uuid 1, [Wait 3; Wait 5])
      else (Some order_info, [Wait 3])
  | None => (None, [Wait 3])
  end.

(** _update_ai_recommendation_execution *)
Definition _update_ai_recommendation_execution (self : t) (c : Candidate)
    (execution_price : Q) (now : datetime) : t :=
  match c_recommendation_id c with
  | Some recommendation_id =>
      if bool_decide (0 < recommendation_id)%Z then
        set_tracker self
          (AIPerformanceTracker.update_recommendation_result (tracker self)
             recommendation_id (Some execution_price) None None now).2
      else self
  | None => self
  end.

(** _execute_buy.  [krw_balance] is what get_krw_balance answers;
    [ai_amount] is the amount decided by the analyzer, used when the analyzer
    is there and enabled. *)
Definition _execute_buy (self : t) (ex : Exchange) (now : datetime)
    (krw_balance : Q) (ai_amount : Q) (candidate : Candidate)
    (settings : BuySettings) : t * list buy_event :=
  let market := c_market candidate in
  if negb (Qle_bool (min_balance_for_buy settings) krw_balance)
  then (self, [])
  else
    let amount :=
      if bool_decide (ai_analyzer self = Some true) then ai_amount
      else Qmin (investment_amount settings) (krw_balance * (8 # 10)) in
    if negb (Qle_bool amount krw_balance) then (self, [])
    else
      match place_buy_order ex market amount with
      | None => (self, [PlaceBuy market amount])
      | Some uuid =>
          let '(order_info, waits) := buy_waits ex uuid in
          let events := PlaceBuy market amount :: waits in
          if is_filled order_info then
            let executed_volume :=
              default 0 (order_info ≫= executed_volume) in
            let avg_price :=
              default (c_current_price candidate) (order_info ≫= avg_price) in
            if negb (Qle_bool executed_volume 0) then
              let actual_investment := executed_volume * avg_price in
              let '(success, rm) :=
                RiskManager.add_position (risk_manager self) now market
                  avg_price executed_volume actual_investment in
              let self := set_risk_manager self rm in
              if success then
                (_update_ai_recommendation_execution self candidate avg_price
                                                     now,
                 events ++ [NotifyBuy market avg_price actual_investment])
              else (self, events)
            else (self, events)
          else (self, events)
      end.

(** class UpbitAPI: what an instance answers to.  get_tradeable_markets is
    a method of MarketAnalyzer. *)
Definition UpbitAPI_attrs : list string :=
  [ "access_key"; "secret_key"; "server_url"; "_get_headers"; "get_accounts";
    "get_krw_balance"; "get_coin_balance"; "get_current_price"; "get_candles";
    "place_buy_order"; "place_sell_order"; "get_order_info"; "get_orders" ].

(** _find_rebalancing_opportunity: its first statement is
    [self.upbit_api.get_tradeable_markets()], inside the function's try;
    [rest] stands for the statements after it. *)
Definition _find_rebalancing_opportunity (rest : option BuyAnalysis)
  : option BuyAnalysis :=
  match getattr "UpbitAPI" UpbitAPI_attrs "get_tradeable_markets" with
  | Raise _ => None
  | Ok _ => rest
  end.

(** What analyze_future_profitability answers: the keys read from it. *)
Record FutureAnalysis := mkFutureAnalysis {
  fa_confidence : option Q;
  fa_expected_profit : option Q
}.

(** A position found stagnant by the 12-hour check. *)
Record Stagnant := mkStagnant {
  st_market : string;
  st_holding_seconds : Z;
  st_profit_rate : Q;
  st_current_price : Q
}.

(** _analyze_rebalancing_candidate; [ai] is the analyzer's answer for the
    position and [threshold] the configured ai_confidence_threshold. *)
Definition _analyze_rebalancing_candidate (rest : option BuyAnalysis)
    (ai : option FutureAnalysis) (threshold : Q) (pos_info : Stagnant)
  : option Decision :=
  match ai with
  | None => None
  | Some future_analysis =>
      let confidence := default 0 (fa_confidence future_analysis) in
      if negb (Qle_bool threshold confidence) then None
      else
        let expected_profit := default 0 (fa_expected_profit future_analysis) in
        if Qle_bool expected_profit (-3) then
          let new_opportunity := _find_rebalancing_opportunity rest in
          Some (mkDecision (st_market pos_info)
                  "AI forecast of a loss"
                  new_opportunity)
        else None
  end.

(** The test of the loop of _check_rebalancing_opportunities for one open
    position: held 12 hours or more, and the price within 2% of the entry
    price.  A missing price or a zero entry price raises. *)
Definition stagnant_entry (ex : Exchange) (now : datetime)
    (entry : string * RiskManager.Position) : result (option Stagnant) :=
  let '(market, position) := entry in
  let holding_seconds := (now - RiskManager.entry_time position)%Z in
  if bool_decide (12 * 3600 ≤ holding_seconds)%Z then
    current_price ← get_current_price ex market;
    match current_price with
    | None => Raise (TypeError "unsupported operand type(s) for -: 'NoneType' and 'float'")
    | Some current_price =>
        let entry_price := RiskManager.entry_price position in
        if Qeq_bool entry_price 0 then Raise ZeroDivisionError
        else
          let profit_rate := (current_price - entry_price) / entry_price * 100 in
          if Qle_bool (-2) profit_rate && Qle_bool profit_rate 2 then
            Ok (Some (mkStagnant market holding_seconds profit_rate
                                 current_price))
          else Ok None
    end
  else Ok None.

Fixpoint stagnant_loop (ex : Exchange) (now : datetime)
    (entries : list (string * RiskManager.Position))
  : result (list Stagnant) :=
  match entries with
  | [] => Ok []
  | entry :: rest =>
      found ← stagnant_entry ex now entry;
      more ← stagnant_loop ex now rest;
      Ok (match found with Some s => s :: more | None => more end)
  end.

Definition execute_decisions (ex : Exchange) (now : datetime)
    (decisions : list Decision) (self : t) : t * list event :=
  foldl (λ acc decision,
           let '(self', evs) := _execute_rebalancing acc.1 ex now decision in
           (self', acc.2 ++ evs))
        (self, []) decisions.

(** _check_rebalancing_opportunities; [ai market] is the analyzer's answer
    for a market. *)
Definition _check_rebalancing_opportunities (rest : option BuyAnalysis)
    (ai : string → option FutureAnalysis) (threshold : Q) (self : t)
    (ex : Exchange) (now : datetime) : t * list event :=
  let open_positions :=
    map_to_list (RiskManager.get_open_positions (risk_manager self)) in
  match stagnant_loop ex now open_positions with
  | Raise _ => (self, [])
  | Ok stagnant_positions =>
      let rebalancing_decisions :=
        omap (λ pos_info,
                _analyze_rebalancing_candidate rest (ai (st_market pos_info))
                                               threshold pos_info)
             stagnant_positions in
      execute_decisions ex now rebalancing_decisions self
  end.

(** A buy order is covered when its amount is within the balance and the
    balance is at least the configured minimum. *)
Definition covered (krw_balance min_balance : Q) (ev : buy_event) : Prop :=
  match ev with
  | PlaceBuy _ amount => amount <= krw_balance ∧ min_balance <= krw_balance
  | _ => True
  end.

(** An exchange that fills every order at [price] but whose order report
    carries no average price. *)
Definition filling_exchange_no_avg (price : Q) : Exchange :=
  mkExchange
    (λ _ _, Some "uuid-sell")
    (λ _ _, Some "uuid-buy")
    (λ _ _, Some (mkOrderInfo (Some "done") (Some 30) None))
    (λ _, Ok (Some price)).

(** A bot with an empty ledger and no analyzer. *)
Definition bot_empty : TradeBot.t :=
  mkBot (RiskManager.mkRiskManager (-50000) 3 ∅ [] None ∅) [] None None.

End TradeBotMore.

(** ** scheduler.py: the daily sale of every position *)

Module Scheduler.

Import TradeUtilsMore.
Local Open Scope Q_scope.

(** The character '-'. *)
Definition dash : Ascii.ascii := Ascii.ascii_of_nat 45.

(** market.split('-') *)
Fixpoint split_dash (s : string) : list string :=
  match s with
  | EmptyString => [""]
  | String c rest =>
      if Ascii.eqb c dash then "" :: split_dash rest
      else
        match split_dash rest with
        | piece :: pieces => String c piece :: pieces
        | [] => [String c ""]
        end
  end.

(** market.split('-')[1]: the currency of a market name such as KRW-BTC;
    there is no such item when the name has no dash (IndexError). *)
Definition currency_of (market : string) : option string :=
  split_dash market !! 1%nat.

(** The exchange as the scheduler uses it: the decorated price request, the
    account list behind get_coin_balance (the same for every request of one
    run), and the order call, which answers [None] when it fails. *)
Record Api := mkApi {
  get_current_price : string → result (option Q);
  accounts : list Account;
  place_sell_order : string → Q → option string
}.

Inductive event :=
| SellOrder (market : string) (volume : Q)
| NotifySell (market : string) (price amount profit_loss profit_rate : Q)
| NotifyInfo (title : string)
| Pause (seconds : Z).

(** The state of the run: the ledger and the local variables sell_count and
    total_pnl, with what was sent out. *)
Record Run := mkRun {
  ledger : RiskManager.t;
  sell_count : nat;
  total_pnl : Q;
  events : list event
}.

(** The body of the loop for one position.  The early exits are the
    [continue] statements and the [except] clause around the body. *)
Definition sell_position (api : Api) (now : datetime) (run : Run)
    (entry : string * RiskManager.Position) : Run :=
  let market := entry.1 in
  match get_current_price api market with
  | Raise _ => run
  | Ok None => run
  | Ok (Some current_price) =>
      if Qeq_bool current_price 0 then run
      else
        match currency_of market with
        | None => run
        | Some currency =>
            let coin_balance := get_coin_balance (accounts api) currency in
            if Qle_bool coin_balance 0 then
              mkRun (RiskManager.close_position (ledger run) now market
                                                current_price).2
                    (sell_count run) (total_pnl run) (events run)
            else
              let placed := events run ++ [SellOrder market coin_balance] in
              match place_sell_order api market coin_balance with
              | None =>
                  mkRun (ledger run) (sell_count run) (total_pnl run) placed
              | Some _ =>
                  match RiskManager.get_position_pnl (ledger run) market
                          current_price with
                  | Raise _ =>
                      mkRun (ledger run) (sell_count run) (total_pnl run)
                            placed
                  | Ok pnl_info =>
                      let '(pnl, pnl_rate) := default (0, 0) pnl_info in
                      let total :=
                        match pnl_info with
                        | Some _ => total_pnl run + pnl
                        | None => total_pnl run
                        end in
                      mkRun (RiskManager.close_position (ledger run) now
                                                        market current_price).2
                            (S (sell_count run)) total
                            (placed ++
                               [NotifySell market current_price
                                  (current_price * coin_balance) pnl pnl_rate;
                                Pause 2])
                  end
              end
        end
  end.

(** _daily_sell_all_positions *)
Definition _daily_sell_all_positions (api : Api) (now : datetime)
    (rm : RiskManager.t) : Run :=
  let start := [NotifyInfo "📢 매일 정시 매도"] in
  let open_positions := map_to_list (RiskManager.get_open_positions rm) in
  match open_positions with
  | [] => mkRun rm 0 0 (start ++ [NotifyInfo "📭 정시 매도 완료"])
  | _ =>
      let run := foldl (sell_position api now) (mkRun rm 0 0 start)
                       open_positions in
      if bool_decide (0 < sell_count run)%nat then
        mkRun (ledger run) (sell_count run) (total_pnl run)
              (events run ++ [NotifyInfo "🎯 정시 매도 완료"])
      else
        mkRun (ledger run) (sell_count run) (total_pnl run)
              (events run ++ [NotifyInfo "⚠️ 정시 매도 오류"])
  end.



(** Something of the coin is left on the exchange. *)
Definition holds_coin (api : Api) (market : string) : Prop :=
  ∀ currency, currency_of market = Some currency →
              0 < get_coin_balance (accounts api) currency.

(** An exchange that holds 30 BTC, prices every market at 1,010 and accepts
    every order. *)
Definition api_ready : Api :=
  mkApi (λ _, Ok (Some 1010))
        [mkAccount "KRW" 100000 None; mkAccount "BTC" 30 (Some 1000)]
        (λ _ _, Some "uuid-sell").

End Scheduler.

(** ** risk_manager.py: synchronising the ledger with the exchange *)

Module LedgerSync.

Import RiskManager TradeUtilsMore.
Local Open Scope Q_scope.

(** The exchange as the ledger uses it: the account list (empty when the
    request fails; the same for every request of one synchronisation) and
    the decorated price request. *)
Record UpbitApi := mkUpbitApi {
  get_accounts : list Account;
  get_current_price : string → result (option Q)
}.

(** sort_values('timestamp'): ascending; rows with the same time stamp keep
    their order in the file. *)
Fixpoint insert_by_time (x : TradeRow) (l : list TradeRow) : list TradeRow :=
  match l with
  | [] => [x]
  | y :: l' =>
      if bool_decide (row_timestamp y ≤ row_timestamp x)%Z
      then y :: insert_by_time x l'
      else x :: y :: l'
  end.

Definition sort_by_time (l : list TradeRow) : list TradeRow :=
  foldl (λ acc x, insert_by_time x acc) [] l.

(** _estimate_entry_price_from_history: the price of the latest BUY row of
    the market. *)
Definition _estimate_entry_price_from_history (self : t) (m : string)
  : option Q :=
  let market_trades :=
    sort_by_time
      (List.filter (λ r, bool_decide (row_market r = m))
                   (trade_history_file self)) in
  let buy_trades :=
    List.filter (λ r, bool_decide (row_action r = "BUY")) market_trades in
  row_price <$> last buy_trades.

(** market.replace('KRW-', '') *)
Fixpoint remove_krw (s : string) : string :=
  match s with
  | EmptyString => EmptyString
  | String c r =>
      if String.prefix "KRW-" s then
        match r with
        | String _ (String _ (String _ r')) => remove_krw r'
        | _ => EmptyString
        end
      else String c (remove_krw r)
  end.

(** _estimate_entry_price_from_upbit_orders: the average buy price of the
    first account in the market's currency that has a positive one. *)
Definition _estimate_entry_price_from_upbit_orders (api : UpbitApi)
    (m : string) : option Q :=
  List.find (λ a, bool_decide (currency a = remove_krw m)
                  && match avg_buy_price a with
                     | Some p => negb (Qle_bool p 0)
                     | None => false
                     end)
            (get_accounts api)
    ≫= avg_buy_price.

(** [if not entry_price]: None and 0.0 are both false. *)
Definition price_truth (p : option Q) : bool :=
  match p with
  | Some q => negb (Qeq_bool q 0)
  | None => false
  end.

Definition or_else (p fallback : option Q) : option Q :=
  if price_truth p then p else fallback.

(** The cascade of restore_positions_from_upbit: history, then the account's
    average buy price, then the position already in the ledger, then the
    current price. *)
Definition restored_entry_price (self : t) (api : UpbitApi) (m : string)
    (current_price : Q) : Q :=
  let estimate := _estimate_entry_price_from_history self m in
  let estimate :=
    or_else estimate (_estimate_entry_price_from_upbit_orders api m) in
  let estimate :=
    or_else estimate (RiskManager.entry_price <$> positions self !! m) in
  default current_price (or_else estimate (Some current_price)).

(** The loop over the accounts; an exception of the price request ends it. *)
Fixpoint restore_loop (self : t) (api : UpbitApi) (now : datetime)
    (accounts : list Account) (restored_positions : gmap string Position)
  : result (gmap string Position) :=
  match accounts with
  | [] => Ok restored_positions
  | account :: rest =>
      if negb (bool_decide (currency account = "KRW"))
         && negb (Qle_bool (balance account) 0)
      then
        let m := "KRW-" +:+ currency account in
        current_price ← get_current_price api m;
        if price_truth current_price then
          let current_price := default 0 current_price in
          let entry_price := restored_entry_price self api m current_price in
          let investment_amount := entry_price * balance account in
          let position :=
            Position_init m entry_price (balance account) now
                          investment_amount in
          restore_loop self api now rest (<[m := position]> restored_positions)
        else restore_loop self api now rest restored_positions
      else restore_loop self api now rest restored_positions
  end.

Definition set_positions (self : t) (ps : gmap string Position) : t :=
  mkRiskManager (daily_loss_limit self) (max_positions self) ps
    (trade_history_file self) (daily_pnl_file self) (positions_file self).

(** restore_positions_from_upbit: on an exception nothing is assigned. *)
Definition restore_positions_from_upbit (self : t) (api : UpbitApi)
    (now : datetime) : t :=
  match restore_loop self api now (get_accounts api) ∅ with
  | Ok restored_positions =>
      _save_positions_to_file (set_positions self restored_positions)
  | Raise _ => self
  end.

(** force_sync_with_upbit: the positions are cleared before the exchange is
    asked; the [except] clause that puts the backup back is reached only
    when a statement of this function raises, and
    restore_positions_from_upbit catches its own exceptions. *)
Definition force_sync_with_upbit (self : t) (api : UpbitApi) (now : datetime)
  : bool * t :=
  let self := set_positions self ∅ in
  let self := restore_positions_from_upbit self api now in
  (true, self).

(** A position as a synchronisation builds it: open, filed under its own
    market, with a positive quantity and an invested amount equal to entry
    price times quantity. *)
Definition rebuilt (m : string) (p : Position) : Prop :=
  is_open p ∧ market p = m ∧ 0 < quantity p
  ∧ investment_amount p = RiskManager.entry_price p * quantity p.

(** An exchange that cannot be reached for prices while the account list
    shows 30 BTC. *)
Definition api_prices_down : UpbitApi :=
  mkUpbitApi [mkAccount "KRW" 100000 None; mkAccount "BTC" 30 (Some 1000)]
             (λ _, Raise ConnectionError).

End LedgerSync.

(** * Properties *)

(** ** The ledger (risk_manager.py) *)

Section Ledger.

Import RiskManager LedgerSpec.
Local Open Scope Q_scope.

Implicit Types (rm : RiskManager.t) (pos : Position) (d : date).

(** *** Arithmetic of the profit-and-loss rate *)





Lemma Qle_bool_false (x y : Q) : Qle_bool x y = false ↔ y < x.
Proof.
  rewrite <- not_true_iff_false, Qle_bool_iff. split; intros H.
  - by apply Qnot_le_lt.
  - by apply Qlt_not_le.
Qed.






End Ledger.

Section LedgerCap.

Import RiskManager LedgerSpec.

Implicit Types (rm : RiskManager.t) (pos : Position).

Lemma has_open_filter rm m :
  has_open rm m = false →
  filter (λ kv : string * Position, is_open kv.2) (positions rm) !! m = None.
Proof.
  unfold has_open. intros H.
  apply map_lookup_filter_None. destruct (positions rm !! m) as [p|] eqn:Hm.
  - right. intros x Hx Hp. simplify_eq. simpl in Hp.
    by rewrite (bool_decide_eq_true_2 _ Hp) in H.
  - by left.
Qed.

Lemma can_open_position_spec rm :
  can_open_position rm = true ↔ (Z.of_nat (count_open rm) < max_positions rm)%Z.
Proof. unfold can_open_position, count_open. apply bool_decide_eq_true. Qed.

(** An accepted call opens exactly one more position. *)
Lemma add_position_accepted rm now m e q a :
  can_open_position rm = true → has_open rm m = false →
  (add_position rm now m e q a).1 = true ∧
  count_open (add_position rm now m e q a).2 = S (count_open rm).
Proof.
  intros Hcan Hno. unfold add_position. rewrite Hcan, Hno. simpl.
  split; [done |]. unfold count_open. simpl. unfold open_filter.
  rewrite map_filter_insert_True by done.
  rewrite map_size_insert.
  by rewrite (has_open_filter _ _ Hno).
Qed.

Lemma add_position_rejected rm now m e q a :
  can_open_position rm = false ∨ has_open rm m = true →
  add_position rm now m e q a = (false, rm).
Proof.
  unfold add_position. intros [H | H].
  - by rewrite H.
  - rewrite H. by destruct (can_open_position rm).
Qed.

(** C5. Position cap: [add_position] never takes the number of open
    positions above [max_positions] (the count after the call is at most the
    larger of the count before and the cap); it answers false and leaves the
    whole ledger as it was when the count has reached the cap or the market
    is already open; so a 4th position under a cap of 3 is refused. *)
Theorem add_position_cap rm now m e q a :
  (Z.of_nat (count_open (add_position rm now m e q a).2)
     ≤ Z.max (Z.of_nat (count_open rm)) (max_positions rm))%Z ∧
  ((max_positions rm ≤ Z.of_nat (count_open rm))%Z ∨ has_open rm m = true →
     add_position rm now m e q a = (false, rm)) ∧
  (max_positions rm = 3%Z → count_open rm = 3%nat →
     add_position rm now m e q a = (false, rm)).
Proof.
  assert (Hrej : (max_positions rm ≤ Z.of_nat (count_open rm))%Z
                 ∨ has_open rm m = true →
                 add_position rm now m e q a = (false, rm)).
  { intros [H | H]; apply add_position_rejected; [left | by right].
    apply not_true_iff_false. rewrite can_open_position_spec. lia. }
  split; [| split; [done |]].
  - destruct (can_open_position rm) eqn:Hcan;
      [destruct (has_open rm m) eqn:Hopen |].
    + rewrite add_position_rejected by (by right). simpl. lia.
    + destruct (add_position_accepted rm now m e q a Hcan Hopen) as [_ ->].
      apply can_open_position_spec in Hcan. lia.
    + rewrite add_position_rejected by (by left). simpl. lia.
  - intros Hmax Hcnt. apply Hrej. left. lia.
Qed.


Example add_fourth_position_refused :
  count_open ledger_full = 3%nat ∧
  add_position ledger_full 1030 "KRW-ADA" 500 60 30000 = (false, ledger_full).
Proof. split; by vm_compute. Qed.

End LedgerCap.

Section LedgerAccounting.

Import RiskManager LedgerSpec.
Local Open Scope Q_scope.

Implicit Types (rm : RiskManager.t) (pos : Position) (d : date).

Lemma sum_profit_loss_app (l1 l2 : list TradeRow) :
  sum_profit_loss (l1 ++ l2) == sum_profit_loss l1 + sum_profit_loss l2.
Proof.
  unfold sum_profit_loss. induction l1 as [| r l1 IH]; simpl.
  - lra.
  - rewrite IH. lra.
Qed.

Lemma sell_rows_on_app d (l1 l2 : list TradeRow) :
  sell_rows_on d (l1 ++ l2) = sell_rows_on d l1 ++ sell_rows_on d l2.
Proof. unfold sell_rows_on. apply List.filter_app. Qed.


Lemma add_position_books rm now m e q a d :
  books_agree rm d → books_agree (add_position rm now m e q a).2 d.
Proof.
  unfold books_agree, add_position. intros H.
  destruct (negb (can_open_position rm)); [done |].
  destruct (has_open rm m); [done |]. simpl.
  rewrite sell_rows_on_app, sum_profit_loss_app. simpl.
  change (get_daily_pnl _ d) with (get_daily_pnl rm d). rewrite H.
  lra.
Qed.


(** What one successful close writes. *)
Lemma close_position_open rm now m x pos :
  positions rm !! m = Some pos → is_open pos →
  let pl := quantity pos * x - investment_amount pos in
  ∃ rm' row,
    close_position rm now m x = (Some pl, rm') ∧
    trade_history_file rm' = trade_history_file rm ++ [row] ∧
    row_action row = "SELL" ∧ row_timestamp row = now ∧
    row_profit_loss row = pl ∧
    (∀ d, get_daily_pnl rm' d =
          if bool_decide (date_of now = d) then get_daily_pnl rm d + pl
          else get_daily_pnl rm d).
Proof.
  intros Hm Hopen pl. unfold close_position. rewrite Hm.
  rewrite (bool_decide_eq_true_2 _ Hopen). simpl.
  eexists _, _. split; [reflexivity |]. simpl.
  split; [reflexivity |]. simpl. repeat split.
  intros d.
  unfold get_daily_pnl. simpl.
  case_bool_decide as Hd.
  - subst. rewrite lookup_insert_eq. simpl. by destruct (daily_pnl_file rm).
  - rewrite lookup_insert_ne by done. by destruct (daily_pnl_file rm).
Qed.

Lemma close_position_none rm now m x :
  (close_position rm now m x).1 = None → (close_position rm now m x).2 = rm.
Proof.
  unfold close_position. destruct (positions rm !! m) as [pos|]; [| done].
  by destruct (negb (bool_decide (is_open pos))).
Qed.

Lemma close_position_books rm now m x d :
  books_agree rm d → books_agree (close_position rm now m x).2 d.
Proof.
  intros H. destruct (positions rm !! m) as [pos|] eqn:Hm.
  - destruct (decide (is_open pos)) as [Hopen | Hclosed].
    + destruct (close_position_open rm now m x pos Hm Hopen)
        as (rm' & row & -> & Hhist & Hact & Htime & Hpl & Hday).
      unfold books_agree in *. simpl. rewrite Hhist, Hday.
      rewrite sell_rows_on_app, sum_profit_loss_app. simpl.
      unfold is_sell_on. rewrite Hact, Htime. simpl.
      case_bool_decide; simpl; rewrite ?Hpl, H; lra.
    + unfold close_position. rewrite Hm.
      by rewrite (bool_decide_eq_false_2 _ Hclosed).
  - unfold close_position. by rewrite Hm.
Qed.

Lemma run_calls_books rm cs d :
  books_agree rm d → books_agree (run_calls rm cs) d.
Proof.
  revert rm. induction cs as [| c cs IH]; intros rm H; [done |].
  simpl. apply IH. destruct c; simpl.
  - by apply add_position_books.
  - by apply close_position_books.
Qed.

(** C6. Realized-P&L accounting identity: starting a date with no daily
    entry and no SELL row for it, after any sequence of add_position and
    close_position calls made on that date the daily-P&L entry equals the sum
    of the profit_loss column over that date's SELL rows; and each successful
    close writes quantity * exitPrice - investedAmount both into its SELL row
    and onto the daily entry. *)
Theorem realized_pnl_accounting rm d (cs : list call) :
  (∀ data, daily_pnl_file rm = Some data → data !! d = None) →
  sell_rows_on d (trade_history_file rm) = [] →
  Forall (λ c, date_of (call_time c) = d) cs →
  get_daily_pnl (run_calls rm cs) d
    == sum_profit_loss (sell_rows_on d (trade_history_file (run_calls rm cs)))
  ∧
  (∀ s now m x pos,
     date_of now = d → positions s !! m = Some pos → is_open pos →
     let pl := quantity pos * x - investment_amount pos in
     ∃ s' row,
       close_position s now m x = (Some pl, s') ∧
       trade_history_file s' = trade_history_file s ++ [row] ∧
       row_action row = "SELL" ∧ date_of (row_timestamp row) = d ∧
       row_profit_loss row = pl ∧
       get_daily_pnl s' d = get_daily_pnl s d + pl).
Proof.
  intros Hday Hrows _. split.
  - apply run_calls_books. unfold books_agree. rewrite Hrows.
    unfold get_daily_pnl. destruct (daily_pnl_file rm) as [data|] eqn:Hf.
    + by rewrite (Hday data).
    + reflexivity.
  - intros s now m x pos Hnow Hm Hopen pl.
    destruct (close_position_open s now m x pos Hm Hopen)
      as (s' & row & Hc & Hhist & Hact & Htime & Hpl & Hd).
    exists s', row. repeat split; try done.
    + by rewrite Htime.
    + rewrite Hd. by rewrite (bool_decide_eq_true_2 _ Hnow).
Qed.


Lemma realized_pnl_accounting_witness :
  get_daily_pnl (run_calls (mkRiskManager (-50000) 3 ∅ [] None ∅) day_one_calls) 1
    == sum_profit_loss
         (sell_rows_on 1
            (trade_history_file
               (run_calls (mkRiskManager (-50000) 3 ∅ [] None ∅) day_one_calls))).
Proof.
  apply (realized_pnl_accounting (mkRiskManager (-50000) 3 ∅ [] None ∅) 1%Z
           day_one_calls).
  - intros data H. discriminate H.
  - reflexivity.
  - repeat constructor.
Defined.

Example day_one_books :
  get_daily_pnl (run_calls (mkRiskManager (-50000) 3 ∅ [] None ∅) day_one_calls) 1
    == 930 - 800.
Proof. by vm_compute. Qed.

End LedgerAccounting.

Section LedgerDailyLimit.

Import RiskManager LedgerSpec.
Local Open Scope Q_scope.

Implicit Types (rm : RiskManager.t) (d : date).








(** The spec's example: a limit of -50,000 and closes of -20,000, -25,000
    and -10,000: no breach after two closes, breach after the third. *)
Example daily_limit_example :
  let rm := mkRiskManager (-50000) 3 ∅ [] None ∅ in
  check_daily_loss_limit (book_trades rm 7 [-20000; -25000]) None 7 = false ∧
  check_daily_loss_limit (book_trades rm 7 [-20000; -25000; -10000]) None 7 = true ∧
  check_daily_loss_limit (book_trades rm 7 [-10000; -20000; -25000]) None 7 = true.
Proof. repeat split; by vm_compute. Qed.

End LedgerDailyLimit.

(** ** The configuration store (config_manager.py) *)

Section ConfigRollback.

Import ConfigManager ConfigSpec.

Implicit Types (self : ConfigManager.t) (updates cfg : gmap string value).

Lemma backup_lookup cfg updates k :
  backup cfg updates !! k =
    match updates !! k with
    | Some _ => Some (dict_get cfg k)
    | None => None
    end.
Proof. unfold backup. rewrite map_lookup_imap. by destruct (updates !! k). Qed.

Lemma rollback_lookup (old_values : gmap string value) cfg k :
  rollback old_values cfg !! k =
    match old_values !! k with
    | Some v => if is_none v then cfg !! k else Some v
    | None => cfg !! k
    end.
Proof.
  unfold rollback.
  apply (map_fold_weak_ind
           (λ (r : gmap string value) (m : gmap string value),
              r !! k = match m !! k with
                       | Some v => if is_none v then cfg !! k else Some v
                       | None => cfg !! k
                       end)).
  - by rewrite lookup_empty.
  - intros i x m r Hi IH. destruct (decide (i = k)) as [-> | Hne].
    + rewrite lookup_insert_eq. destruct (is_none x) eqn:Hx; simpl.
      * rewrite IH, Hi. done.
      * by rewrite lookup_insert_eq.
    + rewrite (lookup_insert_ne m) by done.
      destruct (is_none x); simpl; [done |].
      by rewrite lookup_insert_ne.
Qed.

Lemma save_config_failed self now w :
  w ≠ WriteOk →
  (save_config self None now w).1 = false ∧
  config (save_config self None now w).2
    = <["last_updated" := VTime now]> (config self).
Proof. intros Hw. by destruct w. Qed.

(** The in-memory configuration after a call whose write failed. *)
Lemma update_multiple_failed self updates now w :
  w ≠ WriteOk →
  update_multiple self updates now w =
    (false,
     set_config (save_config (set_config self (updates ∪ config self)) None now w).2
       (rollback (backup (config self) updates)
          (<["last_updated" := VTime now]> (updates ∪ config self)))).
Proof. intros Hw. by destruct w. Qed.

Lemma update_multiple_failed_lookup self updates now w k :
  w ≠ WriteOk →
  config (update_multiple self updates now w).2 !! k =
    match updates !! k with
    | Some new =>
        if is_none (dict_get (config self) k)
        then (if decide (k = "last_updated") then Some (VTime now) else Some new)
        else Some (dict_get (config self) k)
    | None =>
        if decide (k = "last_updated") then Some (VTime now)
        else config self !! k
    end.
Proof.
  intros Hw. rewrite update_multiple_failed by done. simpl.
  rewrite rollback_lookup, backup_lookup.
  assert (Hstamp : (<["last_updated" := VTime now]> (updates ∪ config self)) !! k
            = if decide (k = "last_updated") then Some (VTime now)
              else (updates ∪ config self) !! k).
  { case_decide as Hk; [subst; by rewrite lookup_insert_eq |].
    by rewrite lookup_insert_ne. }
  destruct (updates !! k) as [new|] eqn:Hu.
  - destruct (is_none (dict_get (config self) k)); [| done].
    rewrite Hstamp. case_decide; [done |].
    by rewrite (lookup_union_Some_l _ _ _ _ Hu).
  - rewrite Hstamp. case_decide; [done |].
    by rewrite lookup_union_r.
Qed.

(** C8 (amended). When the write fails, [update_multiple] answers false
    and: every key of the map that held a value other than None holds that
    value again; a key of the map that was absent (or None) before the call
    keeps the new value; a key outside the map is untouched; except that
    "last_updated", unless it is one of the restored keys, holds the time of
    the failed save. *)
Theorem update_multiple_failed_persist self updates now w :
  w ≠ WriteOk →
  let self' := (update_multiple self updates now w).2 in
  (update_multiple self updates now w).1 = false ∧
  (∀ k v, is_Some (updates !! k) → config self !! k = Some v → v ≠ VNone →
          config self' !! k = Some v) ∧
  (∀ k new, updates !! k = Some new → dict_get (config self) k = VNone →
            k ≠ "last_updated" → config self' !! k = Some new) ∧
  (∀ k, updates !! k = None → k ≠ "last_updated" →
        config self' !! k = config self !! k) ∧
  (updates !! "last_updated" = None
     ∨ dict_get (config self) "last_updated" = VNone →
   config self' !! "last_updated" = Some (VTime now)).
Proof.
  intros Hw self'. subst self'.
  split; [by rewrite update_multiple_failed |].
  split; [| split; [| split]].
  - intros k v [new Hu] Hk Hv.
    rewrite update_multiple_failed_lookup, Hu by done.
    unfold dict_get. rewrite Hk. simpl. by destruct v.
  - intros k new Hu Hk Hne.
    rewrite update_multiple_failed_lookup, Hu, Hk by done. simpl.
    by rewrite decide_False.
  - intros k Hu Hne.
    rewrite update_multiple_failed_lookup, Hu by done.
    by rewrite decide_False.
  - intros H. rewrite update_multiple_failed_lookup by done.
    destruct (updates !! "last_updated") as [new|] eqn:Hu.
    + destruct H as [H | H]; [done |]. by rewrite H.
    + done.
Qed.


Lemma update_multiple_failed_persist_witness :
  (update_multiple config_two updates_two 200 OpenFails).1 = false ∧
  config (update_multiple config_two updates_two 200 OpenFails).2 !! "profit_rate"
    = Some (VNum (3 # 100)).
Proof.
  destruct (update_multiple_failed_persist config_two updates_two 200 OpenFails)
    as (Hret & Hrestored & _); [discriminate |].
  split; [exact Hret |].
  apply Hrestored; [vm_compute; eauto | by vm_compute | discriminate].
Defined.

(** The claim as stated fails: after a failed write the key that the call
    introduced is still there and the time stamp has moved, so the in-memory
    configuration is not the one before the call. *)
Lemma update_multiple_not_all_or_nothing :
  (update_multiple config_two updates_two 200 OpenFails).1 = false ∧
  config config_two !! "min_trade_amount" = None ∧
  config (update_multiple config_two updates_two 200 OpenFails).2
    !! "min_trade_amount" = Some (VNum 100) ∧
  config (update_multiple config_two updates_two 200 OpenFails).2
    ≠ config config_two.
Proof.
  split; [by vm_compute |]. split; [by vm_compute |].
  split; [by vm_compute |].
  intros H. apply (f_equal (λ c : gmap string value, c !! "min_trade_amount")) in H.
  vm_compute in H. discriminate H.
Qed.

End ConfigRollback.

(** ** The retry decorator (trade_utils.py) *)

Section RetryLoop.

Import TradeUtils RetrySpec.
Local Open Scope Q_scope.

Context {A : Type}.
Variables (max_retries : Z) (delay_base : Q).
Variables (func : nat → result A) (jitter : nat → Q).

Abbreviation loop := (wrapper_loop max_retries delay_base func jitter).

Lemma wrapper_loop_step (remaining attempt : nat) :
  loop (S remaining) attempt =
    match func attempt with
    | Ok v => ([Call attempt], Ok (Some v))
    | Raise e =>
        if retried max_retries e attempt then
          (Call attempt :: Sleep (backoff delay_base jitter e attempt)
             :: (loop remaining (S attempt)).1,
           (loop remaining (S attempt)).2)
        else ([Call attempt], Raise e)
    end.
Proof.
  simpl. destruct (func attempt) as [v | e]; [done |].
  destruct e; simpl;
    repeat match goal with
           | |- context [if ?b then _ else _] => destruct b; simpl
           end;
    try done; by destruct (loop remaining (S attempt)).
Qed.

(** The attempts are numbered consecutively, there are at most [remaining]
    of them, and there is one pause between two attempts. *)
Lemma wrapper_loop_calls (remaining attempt : nat) :
  (max_retries ≤ Z.of_nat (attempt + remaining))%Z →
  ∃ n, (n ≤ remaining)%nat
       ∧ calls (loop remaining attempt).1 = seq attempt n
       ∧ length (sleeps (loop remaining attempt).1) = pred n.
Proof.
  revert attempt. induction remaining as [| rem IH]; intros k Hk.
  - exists 0%nat. by simpl.
  - rewrite wrapper_loop_step. destruct (func k) as [v | e].
    + exists 1%nat. simpl. split; [lia | done].
    + destruct (retried max_retries e k) eqn:Hr.
      * assert (Hlt : (Z.of_nat k < max_retries - 1)%Z).
        { destruct e; simpl in Hr;
            try (by apply bool_decide_eq_true in Hr).
          apply andb_true_iff in Hr as [_ Hr].
          by apply bool_decide_eq_true in Hr. }
        destruct (IH (S k)) as (n & Hn & Hc & Hs); [lia |].
        exists (S n). simpl. rewrite Hc, Hs. split; [lia |]. split; [done |].
        destruct n as [| n]; [| done]. exfalso.
        destruct rem as [| rem']; [lia |].
        rewrite wrapper_loop_step in Hc.
        destruct (func (S k)) as [v | e']; [done |].
        by destruct (retried max_retries e' (S k)).
      * exists 1%nat. simpl. split; [lia | done].
Qed.



End RetryLoop.

Section RetryDecorated.

Import TradeUtils RetrySpec.
Local Open Scope Q_scope.



Example limited_exchange_trace :
  get_current_price limited_exchange (λ _, 1 # 2) "KRW-BTC"
  = ([Call 0; Sleep (2 * 2 ^ 0 + (1 # 2)); Call 1; Sleep (2 * 2 ^ 1 + (1 # 2));
      Call 2],
     Ok (Some (Some 100))).
Proof. reflexivity. Qed.


End RetryDecorated.

(** ** The ranking fallback (trade_utils.py) *)

Section RankingFallback.

Import TradeUtils RetrySpec.
Local Open Scope Q_scope.

(** MarketAnalyzer has no attribute [get_current_price]. *)
Lemma MarketAnalyzer_get_current_price :
  getattr "MarketAnalyzer" MarketAnalyzer_attrs "get_current_price"
  = Raise (AttributeError "MarketAnalyzer" "get_current_price").
Proof. by vm_compute. Qed.

(** A loop whose every iteration ends in [continue] appends nothing. *)
Lemma fallback_loop_skips (bound_method : string → result (option Q))
    (markets : list string) (acc : list Ticker) :
  foldl
    (λ result market,
       match (_ ← getattr "MarketAnalyzer" MarketAnalyzer_attrs
                          "get_current_price";
              bound_method market) with
       | Ok current_price =>
           if truthy current_price
           then result ++ [mkTicker market 0 0 (default 0 current_price) 0 0]
           else result
       | Raise _ => result
       end)
    acc markets = acc.
Proof.
  revert acc. induction markets as [| m ms IH]; intros acc; [done |].
  cbn [foldl]. rewrite MarketAnalyzer_get_current_price. apply IH.
Qed.

(** C9 (the code departs from the claim). The fallback returns the empty
    list for every limit, whatever the price lookup would answer, because
    each iteration raises AttributeError at [self.get_current_price] and is
    skipped; so when the market list cannot be fetched and the ticker would
    answer, the ranking is empty instead of the ten fallback markets. *)
Theorem fallback_top_markets_empty :
  (∀ (bound_method : string → result (option Q)) (limit : Z),
     _get_fallback_top_markets bound_method limit = []) ∧
  get_daily_trade_volume_ranking outage_exchange (λ _, 0)
    (λ market, Ok (Some 5000)) 10
  = ([Call 0], Ok (Some [])).
Proof.
  assert (H : ∀ (bound_method : string → result (option Q)) (limit : Z),
            _get_fallback_top_markets bound_method limit = []).
  { intros bound_method limit. unfold _get_fallback_top_markets.
    apply fallback_loop_skips. }
  split; [exact H |].
  unfold get_daily_trade_volume_ranking, api_retry. simpl.
  by rewrite H.
Qed.

(** What the claim describes is what the loop yields once the lookup
    resolves: with [get_current_price] among the attributes, the same loop
    returns the ten markets with their prices. *)
Example fallback_with_resolved_lookup :
  foldl
    (λ result market,
       match (_ ← getattr "MarketAnalyzer"
                          ("get_current_price" :: MarketAnalyzer_attrs)
                          "get_current_price";
              Ok (Some 5000)) with
       | Ok current_price =>
           if truthy current_price
           then result ++ [mkTicker market 0 0 (default 0 current_price) 0 0]
           else result
       | Raise _ => result
       end)
    [] (slice_to fallback_markets 10)
  = (λ m, mkTicker m 0 0 5000 0 0) <$> fallback_markets.
Proof. by vm_compute. Qed.

End RankingFallback.

(** ** The recommendation tracker (ai_performance_tracker.py) *)

Section TrackerExit.

Import AIPerformanceTracker.
Local Open Scope Q_scope.

Lemma update_without_execution_price (table : list Row) (rid : Z) (xp : Q)
    (xts : option datetime) (now : datetime) :
  update_recommendation_result table rid None (Some xp) xts now
  = (false, table).
Proof. reflexivity. Qed.

Lemma exit_update_loop_unchanged (table : list Row) (m : string) (xp : Q)
    (now : datetime) (recs : list Row) :
  (exit_update_loop table m xp now recs).1 = table ∧
  Forall (λ c, arg_execution_price c = None ∧ arg_exit_price c = Some xp)
         (exit_update_loop table m xp now recs).2.
Proof.
  induction recs as [| rec rest IH]; simpl.
  - split; [done | constructor].
  - destruct (bool_decide (market rec = m) && executed rec
              && bool_decide (actual_return rec = None)); [| exact IH].
    destruct (select_open_recommendation table m) as [rid |]; [| exact IH].
    simpl. split; [done |]. by repeat constructor.
Qed.

(** C3. A call of update_recommendation_result with no execution price and
    an exit price answers False and leaves the table as it was, so no
    exit_price, exit_timestamp, actual_return, holding_days or success is
    written; the sell-side path _update_ai_recommendation_exit makes only
    such calls, and therefore never changes the table. *)
Theorem exit_half_never_filled (table : list Row) :
  (∀ (rid : Z) (xp : Q) (xts : option datetime) (now : datetime),
     update_recommendation_result table rid None (Some xp) xts now
     = (false, table)) ∧
  (∀ (m : string) (xp : Q) (now : datetime),
     (_update_ai_recommendation_exit table m xp now).1 = table ∧
     Forall (λ c, arg_execution_price c = None ∧ arg_exit_price c = Some xp)
            (_update_ai_recommendation_exit table m xp now).2).
Proof.
  split.
  - intros. apply update_without_execution_price.
  - intros m xp now. apply exit_update_loop_unchanged.
Qed.

(** The sell of a recommended market that was bought at 1,000: the update is
    tried once, with no execution price, and the row keeps an empty exit
    half; with the stored execution price the same call would fill it. *)
Example exit_update_on_table_one :
  _update_ai_recommendation_exit table_one "KRW-BTC" 1031 90000
  = (table_one, [mkInvocation 1 None (Some 1031) (Some 90000%Z)]) ∧
  update_recommendation_result table_one 1 (Some 1000) (Some 1031)
    (Some 90000%Z) 90000
  = (true,
     [ mkRow 1 86400 "KRW-BTC" "BTC" 8 true (Some 1000) (Some 1031)
             (Some 90000%Z) (Some (((1031 - 1000) / 1000) * 100)) (Some 0%Z)
             (Some true) ]).
Proof. split; reflexivity. Qed.

End TrackerExit.

(** ** The rebalancing paths (trade_bot.py) *)

Section Rebalancing.

Import TradeBot Scenario BotSpec.
Local Open Scope Q_scope.

Implicit Types (self : TradeBot.t) (ex : Exchange) (now : datetime).


Lemma await_order_quiet ex uuid : Forall quiet (await_order ex uuid).2.
Proof.
  unfold await_order. repeat case_match; simpl; by repeat constructor.
Qed.

(** [_execute_sell] answers [None], and it neither buys nor announces a
    rebalancing nor starts a swap analysis. *)
Lemma _execute_sell_result self ex now market cp why :
  (_execute_sell self ex now market cp why).1.1 = PNone ∧
  Forall quiet (_execute_sell self ex now market cp why).2.
Proof.
  unfold _execute_sell.
  destruct (RiskManager.positions (risk_manager self) !! market)
    as [position |]; [| by split; [| constructor]].
  destruct (negb _); [by split; [| constructor] |].
  destruct (place_sell_order ex market _) as [uuid |];
    [| by split; [| repeat constructor]].
  pose proof (await_order_quiet ex uuid) as Hw.
  destruct (await_order ex uuid) as [order_info waits]. simpl in Hw.
  assert (Hev : Forall quiet
                  (PlaceSellOrder market (RiskManager.quantity position)
                     :: waits)) by (by constructor).
  destruct (is_filled order_info); [| by split].
  destruct (float_of _) as [avg |]; [| by split].
  destruct (RiskManager.close_position _ _ _ _) as [[pl |] rm]; [| by split].
  destruct (Qeq_bool _ 0); [by split |].
  split; [done |]. simpl.
  constructor; [done |].
  apply Forall_app. split; [done |]. by repeat constructor.
Qed.

(** Since the sell answers [None], the branch that buys is never taken. *)
Lemma _execute_rebalancing_is_sell self ex now decision :
  _execute_rebalancing self ex now decision =
    let r := _execute_sell self ex now (sell_market decision)
               (PStr "REBALANCING") (Text (sell_reason decision)) in
    (r.1.2, r.2).
Proof.
  unfold _execute_rebalancing.
  pose proof (_execute_sell_result self ex now (sell_market decision)
                (PStr "REBALANCING") (Text (sell_reason decision))) as [H _].
  destruct (_execute_sell _ _ _ _ _ _) as [[success self'] events].
  simpl in *. subst success. simpl. by destruct (buy_analysis decision).
Qed.


End Rebalancing.

Section LossCutCandidates.

Import TradeBot Scenario BotSpec.
Local Open Scope Q_scope.

Implicit Types (self : TradeBot.t) (ex : Exchange) (now : datetime).

(** Position objects have no [get]. *)
Lemma Position_get :
  getattr "Position" RiskManager.Position_attrs "get"
  = Raise (AttributeError "Position" "get").
Proof. by vm_compute. Qed.

(** One turn of the loop adds no candidate and starts no analysis. *)
Lemma manage_position_keeps ex now settings acc entry :
  (manage_position ex now settings acc entry).1.2 = acc.1.2 ∧
  (Forall quiet acc.2 →
   Forall quiet (manage_position ex now settings acc entry).2).
Proof.
  destruct acc as [[self losing] events]. destruct entry as [market position].
  unfold manage_position. rewrite Position_get.
  destruct (get_current_price ex market) as [[cp |] |]; [| done | done].
  destruct (Qeq_bool cp 0); [done |].
  destruct (RiskManager.should_sell _ _ _ _ _) as [[[] why] |]; [| | done].
  - pose proof (_execute_sell_result self ex now market (PFloat cp)
                  (RiskReason why)) as [_ Hq].
    destruct (_execute_sell _ _ _ _ _ _) as [[v self'] evs]. simpl in *.
    split; [done |]. intros He. by apply Forall_app.
  - destruct (RiskManager.get_position_pnl _ _ _) as [[[pnl rate] |] |];
      [| done | done].
    by destruct (negb _).
Qed.

Lemma manage_loop_keeps ex now settings entries acc :
  (foldl (manage_position ex now settings) acc entries).1.2 = acc.1.2 ∧
  (Forall quiet acc.2 →
   Forall quiet (foldl (manage_position ex now settings) acc entries).2).
Proof.
  revert acc. induction entries as [| entry entries IH]; intros acc; [done |].
  simpl. destruct (IH (manage_position ex now settings acc entry)) as [H1 H2].
  destruct (manage_position_keeps ex now settings acc entry) as [H3 H4].
  split; [by rewrite H1 | auto].
Qed.

Lemma collect_losing_positions_empty self ex now settings :
  (collect_losing_positions self ex now settings).1.2 = [] ∧
  Forall quiet (collect_losing_positions self ex now settings).2.
Proof.
  unfold collect_losing_positions.
  destruct (manage_loop_keeps ex now settings
              (map_to_list (RiskManager.get_open_positions (risk_manager self)))
              (self, [], [])) as [H1 H2].
  split; [done |]. apply H2. constructor.
Qed.

(** C2 (the code departs from the claim). The list of loss-cut candidates
    is empty after every pass: the first statement for a position below -5%
    is [position.get(...)] on a Position object, whose AttributeError ends
    the turn; so the swap analysis is never started.  In the scenario
    KRW-BTC is held for two days at a loss of 10% with the stop-loss at -20%,
    the analyzer is enabled and the last check is two days old: no candidate
    is collected and no analysis runs. *)
Theorem loss_cut_candidates_never_collected :
  (∀ self ex now settings,
     (collect_losing_positions self ex now settings).1.2 = []) ∧
  (∀ rest self ex now settings,
     Forall (λ ev, is_swap_analysis ev = false)
            (_manage_positions rest self ex now settings).2) ∧
  RiskManager.get_position_pnl ledger_btc "KRW-BTC" 900
    = Ok (Some (30 * 900 - 30000, (30 * 900 - 30000) / 30000 * 100)) ∧
  RiskManager.should_sell ledger_btc "KRW-BTC" 900
      (profit_rate settings_wide) (loss_rate settings_wide)
    = Ok (false, RiskManager.NoReason) ∧
  days_between 172800 0 = 2%Z ∧
  collect_losing_positions bot_btc (filling_exchange 900) 172800 settings_wide
    = (bot_btc, [], []) ∧
  _manage_positions (λ s, (s, [])) bot_btc (filling_exchange 900) 172800
                    settings_wide
    = (bot_btc, []).
Proof.
  split; [intros; apply collect_losing_positions_empty |].
  split; [| repeat split; by vm_compute].
  intros rest self ex now settings. unfold _manage_positions.
  destruct (collect_losing_positions_empty self ex now settings) as [Hl Hq].
  destruct (collect_losing_positions self ex now settings)
    as [[self' losing] events]. simpl in *. subst losing. simpl.
  assert (Hq' : Forall (λ ev, is_swap_analysis ev = false) events).
  { eapply Forall_impl; [exact Hq |]. by intros ev [_ H]. }
  by destruct (last_swap_check self').
Qed.

End LossCutCandidates.

(** ** The ledger over call sequences, restarts and statistics *)

Section LedgerSequences.

Import RiskManager LedgerSpec LedgerFiles.
Local Open Scope Q_scope.

Implicit Types (rm : RiskManager.t) (pos : Position) (d : date).

(** A refused close changes nothing; a successful one closes one open
    position. *)
Lemma close_position_refused rm now m x :
  has_open rm m = false → close_position rm now m x = (None, rm).
Proof.
  unfold has_open, close_position.
  destruct (positions rm !! m) as [pos |]; [| done].
  by intros ->.
Qed.

Lemma close_position_positions rm now m x pos :
  positions rm !! m = Some pos → is_open pos →
  positions (close_position rm now m x).2
    = <[m := (Position_close_position pos x now).1]> (positions rm)
  ∧ positions_file (close_position rm now m x).2
    = open_filter (positions (close_position rm now m x).2).
Proof.
  intros Hm Hopen. unfold close_position. rewrite Hm.
  by rewrite (bool_decide_eq_true_2 _ Hopen).
Qed.

Lemma close_position_count rm now m x pos :
  positions rm !! m = Some pos → is_open pos →
  count_open (close_position rm now m x).2 = pred (count_open rm).
Proof.
  intros Hm Hopen. unfold count_open.
  destruct (close_position_positions rm now m x pos Hm Hopen) as [-> _].
  unfold open_filter.
  rewrite map_filter_insert_False by (simpl; unfold is_open; simpl; discriminate).
  rewrite map_filter_delete, map_size_delete.
  rewrite (map_lookup_filter_Some_2 _ _ m pos); done.
Qed.

Lemma has_open_spec rm m :
  has_open rm m = true ↔ ∃ pos, positions rm !! m = Some pos ∧ is_open pos.
Proof.
  unfold has_open. destruct (positions rm !! m) as [pos |]; split.
  - intros H%bool_decide_eq_true. eauto.
  - intros (p & [= <-] & H). by apply bool_decide_eq_true.
  - done.
  - by intros (p & H & _).
Qed.

(** X1. The cap holds along any sequence of calls: if the number of open
    positions is within [max_positions] at the start, it is after every
    sequence of add_position and close_position calls. *)
Theorem run_calls_cap rm (cs : list call) :
  (Z.of_nat (count_open rm) ≤ max_positions rm)%Z →
  (Z.of_nat (count_open (run_calls rm cs)) ≤ max_positions (run_calls rm cs))%Z.
Proof.
  revert rm. induction cs as [| c cs IH]; intros rm H; [done |].
  simpl. apply IH. destruct c as [now m e q a | now m x]; simpl.
  - destruct (can_open_position rm) eqn:Hcan;
      [destruct (has_open rm m) eqn:Hop |].
    + by rewrite add_position_rejected by (by right).
    + destruct (add_position_accepted rm now m e q a Hcan Hop) as [_ Hc].
      rewrite Hc. pose proof (proj1 (can_open_position_spec rm) Hcan) as Hlt.
      unfold add_position. rewrite Hcan, Hop. simpl. lia.
    + by rewrite add_position_rejected by (by left).
  - destruct (has_open rm m) eqn:Hop.
    + apply has_open_spec in Hop as (pos & Hm & Hopen).
      rewrite (close_position_count rm now m x pos Hm Hopen).
      unfold close_position. rewrite Hm, (bool_decide_eq_true_2 _ Hopen).
      simpl. lia.
    + by rewrite close_position_refused.
Qed.

Lemma run_calls_cap_witness :
  (Z.of_nat (count_open (run_calls (fresh (-50000) 1) day_one_calls)) ≤ 1)%Z.
Proof.
  apply (run_calls_cap (fresh (-50000) 1) day_one_calls). by vm_compute.
Defined.

(** X2. A close that is refused, and a second close: closing a market that
    has no open position answers None and leaves the ledger, the history and
    the files as they were; after a successful close of a market the same
    close is refused. *)
Theorem close_position_twice rm now now' m x x' :
  (has_open rm m = false → close_position rm now m x = (None, rm)) ∧
  close_position (close_position rm now m x).2 now' m x'
    = (None, (close_position rm now m x).2).
Proof.
  split; [apply close_position_refused |].
  apply close_position_refused.
  destruct (has_open rm m) eqn:Hop.
  - apply has_open_spec in Hop as (pos & Hm & Hopen).
    unfold has_open.
    destruct (close_position_positions rm now m x pos Hm Hopen) as [-> _].
    by rewrite lookup_insert_eq.
  - by rewrite close_position_refused.
Qed.

(** X3. The trade history is append-only: whatever calls are made, the rows
    present before are still there, in place, at the head of the file. *)
Theorem run_calls_history_prefix rm (cs : list call) :
  trade_history_file rm `prefix_of` trade_history_file (run_calls rm cs).
Proof.
  revert rm. induction cs as [| c cs IH]; intros rm; [done |].
  simpl. etrans; [| apply IH]. destruct c as [now m e q a | now m x]; simpl.
  - unfold add_position. destruct (negb _); [done |].
    destruct (has_open rm m); [done |]. simpl. by apply prefix_app_r.
  - unfold close_position. destruct (positions rm !! m) as [pos |]; [| done].
    destruct (negb _); [done |]. simpl. by apply prefix_app_r.
Qed.

(** X4. The cumulative column: the SELL row written by a successful close
    carries, as cumulative_pnl, the day's realized P&L as it stands after
    the close. *)
Theorem sell_row_cumulative rm now m x pos :
  positions rm !! m = Some pos → is_open pos →
  ∃ row,
    trade_history_file (close_position rm now m x).2
      = trade_history_file rm ++ [row] ∧
    row_action row = "SELL" ∧
    row_cumulative_pnl row
      = get_daily_pnl (close_position rm now m x).2 (date_of now).
Proof.
  intros Hm Hopen. unfold close_position. rewrite Hm.
  rewrite (bool_decide_eq_true_2 _ Hopen). simpl.
  eexists. split; [reflexivity |]. split; [done |]. simpl.
  unfold get_daily_pnl. simpl. rewrite lookup_insert_eq. simpl.
  by destruct (daily_pnl_file rm).
Qed.

Lemma sell_row_cumulative_witness :
  ∃ row,
    trade_history_file (close_position ledger_one 2000 "KRW-BTC" 110000).2
      = trade_history_file ledger_one ++ [row] ∧
    row_action row = "SELL" ∧
    row_cumulative_pnl row
      = get_daily_pnl (close_position ledger_one 2000 "KRW-BTC" 110000).2
                      (date_of 2000).
Proof.
  apply (sell_row_cumulative ledger_one 2000 "KRW-BTC" 110000
           (Position_init "KRW-BTC" 100000 (3 # 10) 1000%Z 30000));
    reflexivity.
Defined.

End LedgerSequences.

Section LedgerRestart.

Import RiskManager LedgerSpec LedgerFiles.
Local Open Scope Q_scope.

Implicit Types (rm : RiskManager.t) (pos : Position).

Lemma fresh_positions l mx : positions (fresh l mx) = ∅.
Proof. unfold fresh, init. simpl. by rewrite omap_empty, (left_id_L ∅ (∪)). Qed.

Lemma run_call_kept rm c :
  open_as_created rm ∧ snapshot_current rm →
  open_as_created (run_call rm c) ∧ snapshot_current (run_call rm c).
Proof.
  intros [Hc Hs]. destruct c as [now m e q a | now m x]; simpl.
  - unfold add_position. destruct (negb _); [done |].
    destruct (has_open rm m); [done |]. simpl. split; [| done].
    intros k p. simpl. destruct (decide (m = k)) as [-> | Hne].
    + rewrite lookup_insert_eq. by intros [= <-] _.
    + rewrite lookup_insert_ne by done. apply Hc.
  - unfold close_position. destruct (positions rm !! m) as [pos |] eqn:Hm;
      [| done].
    destruct (negb _); [done |]. simpl. split; [| done].
    intros k p. simpl. destruct (decide (m = k)) as [-> | Hne].
    + rewrite lookup_insert_eq. intros [= <-]. unfold is_open. simpl.
      discriminate.
    + rewrite lookup_insert_ne by done. apply Hc.
Qed.

Lemma run_calls_kept rm cs :
  open_as_created rm ∧ snapshot_current rm →
  open_as_created (run_calls rm cs) ∧ snapshot_current (run_calls rm cs).
Proof.
  revert rm. induction cs as [| c cs IH]; intros rm H; [done |].
  simpl. apply IH. by apply run_call_kept.
Qed.

Lemma restart_positions rm :
  open_as_created rm → snapshot_current rm →
  positions (restart rm) = get_open_positions rm.
Proof.
  intros Hc Hs. unfold restart, init. simpl.
  rewrite (right_id_L ∅ (∪)), Hs. unfold get_open_positions, open_filter.
  apply map_eq. intros k. rewrite lookup_omap.
  destruct (filter _ (positions rm) !! k) as [p |] eqn:Hk; [| done].
  apply map_lookup_filter_Some in Hk as [Hk Hopen]. simpl in *.
  unfold restore_entry. rewrite (bool_decide_eq_true_2 _ Hopen).
  rewrite (Hc k p Hk Hopen) at 6. by rewrite (Hc k p Hk Hopen) at 1.
Qed.

(** X5. Restart round trip: after any sequence of add_position and
    close_position calls on a ledger that started empty, a new process that
    reads positions.json back holds exactly the positions that were open,
    so it also counts the same number of open positions. *)
Theorem restart_after_calls (l : Q) (mx : Z) (cs : list call) :
  positions (restart (run_calls (fresh l mx) cs))
    = get_open_positions (run_calls (fresh l mx) cs)
  ∧ count_open (restart (run_calls (fresh l mx) cs))
    = count_open (run_calls (fresh l mx) cs).
Proof.
  assert (H : open_as_created (run_calls (fresh l mx) cs)
              ∧ snapshot_current (run_calls (fresh l mx) cs)).
  { apply run_calls_kept. split.
    - intros m p. by rewrite fresh_positions, lookup_empty.
    - unfold snapshot_current, get_open_positions, open_filter.
      rewrite fresh_positions. by rewrite map_filter_empty. }
  destruct H as [Hc Hs].
  pose proof (restart_positions _ Hc Hs) as Hp.
  split; [done |]. unfold count_open. rewrite Hp.
  unfold get_open_positions, open_filter. f_equal.
  apply map_filter_id. intros k p Hk.
  by apply map_lookup_filter_Some in Hk as [_ Hk].
Qed.

End LedgerRestart.

Section LedgerStats.

Import RiskManager LedgerSpec LedgerFiles.
Local Open Scope Q_scope.

Lemma filter_split_length {A} (f : A → bool) (l : list A) :
  (length (List.filter f l) + length (List.filter (λ x, negb (f x)) l)
   = length l)%nat.
Proof.
  induction l as [| a l IH]; [done |]. simpl.
  destruct (f a); simpl; lia.
Qed.

Lemma ratio_bounds (w t : Z) :
  (0 ≤ w)%Z → (w ≤ t)%Z → (0 < t)%Z →
  0 <= inject_Z w / inject_Z t * 100 ∧ inject_Z w / inject_Z t * 100 <= 100.
Proof.
  intros Hw Hwt Ht.
  assert (HW : inject_Z 0 <= inject_Z w) by (by rewrite <- Zle_Qle).
  assert (HWT : inject_Z w <= inject_Z t) by (by rewrite <- Zle_Qle).
  assert (HT : inject_Z 0 < inject_Z t) by (by rewrite <- Zlt_Qlt).
  change (inject_Z 0) with 0 in HW, HT.
  assert (H0 : 0 <= inject_Z w / inject_Z t).
  { apply Qle_shift_div_l; [done | lra]. }
  assert (H1 : inject_Z w / inject_Z t <= 1).
  { apply Qle_shift_div_r; [done | lra]. }
  split; lra.
Qed.

(** X6. Trading statistics: the win rate always lies between 0 and 100;
    with no SELL row in the window the answer is the all-zero dictionary;
    otherwise winners and losers add up to the number of trades, and a
    trade that broke even (profit_loss = 0) is counted as a loser. *)
Theorem get_trading_stats_bounds (rm : RiskManager.t) (now : datetime)
    (days : Z) :
  let s := get_trading_stats rm now days in
  let window :=
    List.filter (λ r, bool_decide (row_action r = "SELL"))
      (List.filter (λ r, bool_decide (now - days * 86400 ≤ row_timestamp r)%Z)
                   (trade_history_file rm)) in
  0 <= win_rate s ∧ win_rate s <= 100 ∧
  (window = [] → s = empty_stats) ∧
  (window ≠ [] →
   total_trades s = Z.of_nat (length window) ∧
   winning_trades s
     = Some (Z.of_nat (length (List.filter
                                 (λ r, negb (Qle_bool (row_profit_loss r) 0))
                                 window))) ∧
   losing_trades s
     = Some (Z.of_nat (length (List.filter
                                 (λ r, Qle_bool (row_profit_loss r) 0)
                                 window)))).
Proof.
  intros s window. subst s. unfold get_trading_stats.
  destruct (trade_history_file rm) as [| r0 rows] eqn:Hh.
  { subst window. simpl. repeat split; try done. }
  fold window. destruct window as [| w ws] eqn:Hw.
  { repeat split; try done. }
  rewrite <- Hw.
  assert (Hlen : (0 < length window)%nat) by (rewrite Hw; simpl; lia).
  pose proof (filter_split_length is_win window) as Hsplit.
  destruct (ratio_bounds (Z.of_nat (length (List.filter is_win window)))
              (Z.of_nat (length window))) as [H0 H1]; [lia | lia | lia |].
  simpl. split; [done |]. split; [done |]. split; [by rewrite Hw |].
  intros _. split; [done |]. split; [done |]. f_equal.
  assert (Heq : List.filter (λ x, negb (is_win x)) window
                = List.filter (λ r, Qle_bool (row_profit_loss r) 0) window).
  { apply List.filter_ext. intros r. unfold is_win. by rewrite negb_involutive. }
  rewrite <- Heq. lia.
Qed.

End LedgerStats.

(** ** The configuration store: loading, single updates, reset *)

Section ConfigStoreProps.

Import ConfigManager ConfigSpec ConfigStore.

Implicit Types (self : ConfigManager.t) (updates cfg : gmap string value).

(** X7. Loading merges the file over the defaults: whatever the file on
    disk (missing, unreadable, or any JSON object), the configuration after
    construction has every default key, and a key present in the file has
    the file's value. *)
Theorem init_has_defaults (file : file_state) (created now : datetime)
    (w : write_outcome) :
  (∀ k, is_Some (default_settings created !! k) →
        is_Some (config (init file created now w) !! k)) ∧
  (∀ content k v, file = Json content → content !! k = Some v →
        config (init file created now w) !! k = Some v).
Proof.
  split.
  - intros k [d Hd]. unfold init, load_config. simpl.
    destruct file as [| content |]; simpl.
    + destruct w; simpl;
        (destruct (decide (k = "last_updated")) as [-> | Hne];
         [rewrite lookup_insert_eq | rewrite lookup_insert_ne by done]; eauto).
    + destruct (content !! k) as [v |] eqn:Hk.
      * rewrite (lookup_union_Some_l _ _ _ _ Hk). eauto.
      * rewrite lookup_union_r by done. eauto.
    + eauto.
  - intros content k v -> Hk. unfold init, load_config. simpl.
    by rewrite (lookup_union_Some_l _ _ _ _ Hk).
Qed.

(** X8. A failed single update: when the write fails, [set] answers
    false and every key other than "last_updated" reads as before through
    [get(key)]; the key itself is left in the dictionary, bound to None when
    it was absent before. *)
Theorem set_failed_restores self key (v : value) now w :
  w ≠ WriteOk →
  (set self key v now w).1 = false ∧
  (∀ k, k ≠ "last_updated" →
        dict_get (config (set self key v now w).2) k
        = dict_get (config self) k) ∧
  config (set self key v now w).2 !! key
    = Some (dict_get (config self) key).
Proof.
  intros Hw.
  assert (Hset : set self key v now w
                 = (false,
                    set_config
                      (save_config (set_config self (<[key := v]> (config self)))
                                   None now w).2
                      (<[key := dict_get (config self) key]>
                         (<["last_updated" := VTime now]>
                            (<[key := v]> (config self)))))).
  { by destruct w. }
  rewrite Hset. simpl. split; [done |]. split.
  - intros k Hk. unfold dict_get.
    destruct (decide (key = k)) as [-> | Hne].
    + by rewrite lookup_insert_eq.
    + by rewrite !lookup_insert_ne by done.
  - by rewrite lookup_insert_eq.
Qed.

Lemma set_failed_restores_witness :
  (set config_two "profit_rate" (VNum (5 # 100)) 200 DumpFails).1 = false.
Proof.
  refine (proj1 (set_failed_restores config_two "profit_rate" (VNum (5 # 100))
                   200 DumpFails _)).
  discriminate.
Defined.

(** X9. A successful batch update: when the write succeeds,
    [update_multiple] answers true, the file holds exactly the in-memory
    configuration, every key of the map other than "last_updated" has its
    new value, "last_updated" is the time of the save, and every other key
    is unchanged. *)
Theorem update_multiple_succeeds self updates now :
  let r := update_multiple self updates now WriteOk in
  r.1 = true ∧
  config_file r.2 = Json (config r.2) ∧
  config r.2 !! "last_updated" = Some (VTime now) ∧
  (∀ k new, updates !! k = Some new → k ≠ "last_updated" →
            config r.2 !! k = Some new) ∧
  (∀ k, updates !! k = None → k ≠ "last_updated" →
        config r.2 !! k = config self !! k).
Proof.
  simpl. split; [done |]. split; [done |].
  split; [by rewrite lookup_insert_eq |]. split.
  - intros k new Hu Hk. rewrite lookup_insert_ne by done.
    by rewrite (lookup_union_Some_l _ _ _ _ Hu).
  - intros k Hu Hk. rewrite lookup_insert_ne by done.
    by rewrite lookup_union_r.
Qed.

(** X10. Reset is all-or-nothing: when the write fails, reset_to_default
    answers false and the in-memory configuration and the defaults are
    exactly as before; when it succeeds, memory and file both hold the
    defaults stamped with the time of the reset. *)
Theorem reset_to_default_all_or_nothing self now w :
  (w ≠ WriteOk →
   (reset_to_default self now w).1 = false ∧
   config (reset_to_default self now w).2 = config self ∧
   default_config (reset_to_default self now w).2 = default_config self) ∧
  (w = WriteOk →
   (reset_to_default self now w).1 = true ∧
   config (reset_to_default self now w).2
     = <["last_updated" := VTime now]> (default_config self) ∧
   config_file (reset_to_default self now w).2
     = Json (config (reset_to_default self now w).2)).
Proof.
  split; [intros Hw; by destruct w | by intros ->].
Qed.

End ConfigStoreProps.

(** ** The retry wrapper for any setting, and the market queries *)

Section RetryGeneral.

Import TradeUtils RetrySpec TradeUtilsMore.
Local Open Scope Q_scope.

Context {A : Type}.
Variables (max_retries : Z) (delay_base : Q).
Variables (func : nat → result A) (jitter : nat → Q).

Abbreviation loop' := (wrapper_loop max_retries delay_base func jitter).

Lemma retried_lt (e : exn) (k : nat) :
  retried max_retries e k = true → (Z.of_nat k < max_retries - 1)%Z.
Proof.
  destruct e; simpl; intros Hr;
    try (by apply bool_decide_eq_true in Hr).
  apply andb_true_iff in Hr as [_ Hr]. by apply bool_decide_eq_true in Hr.
Qed.

(** The [return None] after the loop is reached only when the loop body
    never runs. *)
Lemma wrapper_loop_not_none (remaining attempt : nat) :
  (max_retries ≤ Z.of_nat (attempt + remaining))%Z → (0 < remaining)%nat →
  (loop' remaining attempt).2 ≠ Ok None.
Proof.
  revert attempt. induction remaining as [| rem IH]; intros k Hk Hrem; [lia |].
  rewrite wrapper_loop_step. destruct (func k) as [v | e]; [done |].
  destruct (retried max_retries e k) eqn:Hr; [| done]. simpl.
  apply retried_lt in Hr. apply IH; lia.
Qed.

(** A value that is returned is the value of an attempt that was made. *)
Lemma wrapper_loop_ok (remaining attempt : nat) (v : A) :
  (loop' remaining attempt).2 = Ok (Some v) →
  ∃ j, j ∈ calls (loop' remaining attempt).1 ∧ func j = Ok v.
Proof.
  revert attempt. induction remaining as [| rem IH]; intros k; [done |].
  rewrite wrapper_loop_step. destruct (func k) as [v' | e] eqn:Hf.
  - simpl. intros [= ->]. exists k. split; [apply list_elem_of_singleton |]; done.
  - destruct (retried max_retries e k); [| done]. simpl.
    intros (j & Hj & Hv)%IH. exists j. split; [by apply elem_of_cons; right | done].
Qed.

End RetryGeneral.

Section RetryEdges.

Import TradeUtils RetrySpec TradeUtilsMore.
Local Open Scope Q_scope.

(** X11. The retry wrapper for any setting: it makes at most
    [max_retries] attempts; with [max_retries] <= 0 the wrapped function is
    never called and the answer is None; with [max_retries] >= 1 the answer
    is never the None of the end of the loop: it is a value returned by an
    attempt that was made, or an exception. *)
Theorem api_retry_attempts {A : Type} (max_retries : Z) (delay_base : Q)
    (func : nat → result A) (jitter : nat → Q) :
  let r := api_retry max_retries delay_base func jitter in
  (length (calls r.1) ≤ Z.to_nat max_retries)%nat ∧
  ((max_retries ≤ 0)%Z → r = ([], Ok None)) ∧
  ((1 ≤ max_retries)%Z → r.2 ≠ Ok None) ∧
  (∀ v, r.2 = Ok (Some v) → ∃ j, j ∈ calls r.1 ∧ func j = Ok v).
Proof.
  simpl. unfold api_retry.
  destruct (wrapper_loop_calls max_retries delay_base func jitter
              (Z.to_nat max_retries) 0) as (n & Hn & Hc & _); [lia |].
  split; [by rewrite Hc, length_seq |]. split; [| split].
  - intros Hle. by replace (Z.to_nat max_retries) with 0%nat by lia.
  - intros Hge. apply wrapper_loop_not_none; lia.
  - intros v. apply wrapper_loop_ok.
Qed.




End RetryEdges.

Section RetryValue.

Import TradeUtils RetrySpec TradeUtilsMore.

(** The value of a call that returns is the value of one of its attempts. *)
Lemma api_retry_value_of_attempt {A : Type} (max_retries : Z) (delay_base : Q)
    (func : nat → result A) (jitter : nat → Q) (v : A) :
  (api_retry max_retries delay_base func jitter).2 = Ok (Some v) →
  ∃ j, j ∈ calls (api_retry max_retries delay_base func jitter).1
       ∧ func j = Ok v.
Proof. apply wrapper_loop_ok. Qed.

End RetryValue.

Section Ranking.

Import TradeUtils RetrySpec TradeUtilsMore.
Local Open Scope Q_scope.

Lemma insert_desc_perm (x : Ticker) (l : list Ticker) :
  insert_desc x l ≡ₚ x :: l.
Proof.
  induction l as [| y l IH]; [done |]. simpl.
  destruct (Qle_bool _ _); [| done].
  rewrite IH. apply Permutation_swap.
Qed.

Lemma sort_desc_perm_acc (l acc : list Ticker) :
  foldl (λ acc x, insert_desc x acc) acc l ≡ₚ l ++ acc.
Proof.
  revert acc. induction l as [| x l IH]; intros acc; [done |].
  simpl. rewrite IH, insert_desc_perm. by rewrite Permutation_middle.
Qed.

Lemma sort_desc_perm (l : list Ticker) : sort_desc l ≡ₚ l.
Proof. unfold sort_desc. by rewrite sort_desc_perm_acc, app_nil_r. Qed.

Lemma insert_desc_sorted (x : Ticker) (l : list Ticker) :
  Sorted ranked_before l → Sorted ranked_before (insert_desc x l).
Proof.
  induction l as [| y l IH]; intros Hs; simpl.
  - by repeat constructor.
  - apply Sorted_inv in Hs as [Hs Hhd].
    destruct (Qle_bool (trade_price x) (trade_price y)) eqn:Hxy.
    + apply Qle_bool_iff in Hxy. constructor; [by apply IH |].
      destruct l as [| z l]; simpl.
      * by constructor.
      * destruct (Qle_bool _ _); constructor; [| done].
        by apply HdRel_inv in Hhd.
    + constructor; [by constructor |]. constructor.
      unfold ranked_before. apply Qlt_le_weak.
      apply Qnot_le_lt. intros H. apply Qle_bool_iff in H. congruence.
Qed.

Lemma sort_desc_sorted_acc (l acc : list Ticker) :
  Sorted ranked_before acc →
  Sorted ranked_before (foldl (λ acc x, insert_desc x acc) acc l).
Proof.
  revert acc. induction l as [| x l IH]; intros acc Hs; [done |].
  simpl. apply IH. by apply insert_desc_sorted.
Qed.

Lemma Sorted_take {B} (R : B → B → Prop) (l : list B) (n : nat) :
  Sorted R l → Sorted R (take n l).
Proof.
  revert n. induction l as [| a l IH]; intros n Hs; [by destruct n |].
  destruct n as [| n]; [constructor |]. simpl.
  apply Sorted_inv in Hs as [Hs Hhd]. constructor; [by apply IH |].
  destruct l as [| b l]; destruct n; simpl; try constructor.
  by apply HdRel_inv in Hhd.
Qed.

Lemma Forall_slice_to {B} (P : B → Prop) (l : list B) (limit : Z) :
  Forall P l → Forall P (slice_to l limit).
Proof. intros H. unfold slice_to. case_bool_decide; by apply Forall_take. Qed.

(** X13. The ranking on its normal path: when the two requests succeed the
    list returned is in descending order of 24h notional, holds only KRW
    markets with a positive notional, and has at most [limit] entries
    (for [limit] >= 0); and whatever the exchange does, the decorated
    function is attempted exactly once, never sleeps and never raises. *)
Theorem ranking_sorted (ex : Exchange) (jitter : nat → Q)
    (bound_method : string → result (option Q)) (limit : Z) :
  (∃ l, get_daily_trade_volume_ranking ex jitter bound_method limit
        = ([Call 0], Ok (Some l))) ∧
  (∀ top, ranking_body ex 0 limit = Ok top →
     get_daily_trade_volume_ranking ex jitter bound_method limit
       = ([Call 0], Ok (Some top)) ∧
     Sorted ranked_before top ∧
     Forall (λ t, 0 < trade_price t ∧ String.prefix "KRW-" (market t) = true)
            top ∧
     ((0 ≤ limit)%Z → (length top ≤ Z.to_nat limit)%nat)).
Proof.
  split.
  - unfold get_daily_trade_volume_ranking, api_retry. simpl.
    destruct (ranking_body ex 0 limit); eauto.
  - intros top Hbody. split.
    { unfold get_daily_trade_volume_ranking, api_retry. simpl.
      by rewrite Hbody. }
    unfold ranking_body in Hbody.
    destruct (market_all ex 0) as [all_markets |]; [| done]. simpl in Hbody.
    destruct (tickers ex _) as [raw |]; [| done]. simpl in Hbody.
    injection Hbody as <-.
    set (kept := List.filter _ raw).
    split; [| split].
    + unfold slice_to. case_bool_decide; apply Sorted_take;
        apply sort_desc_sorted_acc; constructor.
    + apply Forall_slice_to.
      rewrite sort_desc_perm. apply Forall_fmap, Forall_forall.
      intros t Ht. apply list_elem_of_In, List.filter_In in Ht as [_ Ht].
      apply andb_true_iff in Ht as [Hp Hv]. simpl. split; [| done].
      apply Qnot_le_lt. intros H. apply Qle_bool_iff in H.
      by rewrite H in Hv.
    + intros Hl. unfold slice_to. rewrite bool_decide_eq_true_2 by done.
      rewrite length_take. lia.
Qed.

(** X14. The market list: when get_tradeable_markets returns a list, it
    has at most 50 entries and every one starts with "KRW-". *)
Theorem tradeable_markets_krw (ex : Exchange) (jitter : nat → Q)
    (markets : list string) :
  (get_tradeable_markets ex jitter).2 = Ok (Some markets) →
  (length markets ≤ 50)%nat ∧
  Forall (λ m, String.prefix "KRW-" m = true) markets.
Proof.
  intros H.
  destruct (api_retry_value_of_attempt _ _ _ _ _ H) as (j & _ & Hj).
  destruct (market_all ex j) as [all |]; [| done]. simpl in Hj.
  injection Hj as <-. split; [rewrite length_take; lia |].
  apply Forall_take.
  apply Forall_forall. intros m Hm.
  by apply list_elem_of_In, List.filter_In in Hm as [_ Hm].
Qed.

End Ranking.

(** ** Volume spike and rate limiter (trade_utils.py) *)

Section MarketQueries.

Import TradeUtils RetrySpec TradeUtilsMore MarketScenario.
Local Open Scope Q_scope.

Lemma tradeable_markets_krw_witness :
  (length ["KRW-BTC"; "KRW-ETH"] ≤ 50)%nat ∧
  Forall (λ m, String.prefix "KRW-" m = true) ["KRW-BTC"; "KRW-ETH"].
Proof.
  apply (tradeable_markets_krw listing_exchange (λ _, 0)). reflexivity.
Defined.




(** X16. The rate limiter: when the clock has not gone back, the time
    recorded for a call is at least [call_interval] after the time recorded
    for the call before; the wait is never negative, never longer than the
    interval, and zero once the interval has elapsed. *)
Theorem wait_if_needed_spacing (self : RateLimiter) (clock : Q) :
  last_call_time self <= clock → 0 <= call_interval self →
  let r := wait_if_needed self clock in
  last_call_time self + call_interval self <= last_call_time r.1.1 ∧
  last_call_time r.1.1 == r.1.2 ∧
  r.1.2 == clock + r.2 ∧
  0 <= r.2 ∧ r.2 <= call_interval self ∧
  (call_interval self <= clock - last_call_time self → r.2 == 0).
Proof.
  intros Hclock Hint. unfold wait_if_needed. simpl.
  destruct (Qle_bool (call_interval self) (clock - last_call_time self))
    eqn:Hle; simpl.
  - apply Qle_bool_iff in Hle. repeat split; intros; lra.
  - apply Qle_bool_false in Hle. repeat split; intros; lra.
Qed.

Lemma wait_if_needed_spacing_witness :
  last_call_time (mkRateLimiter 8 10 (1 # 8)) + (1 # 8)
  <= last_call_time (wait_if_needed (mkRateLimiter 8 10 (1 # 8))
                                    (10 + (1 # 16))).1.1.
Proof.
  refine (proj1 (wait_if_needed_spacing (mkRateLimiter 8 10 (1 # 8))
                   (10 + (1 # 16)) _ _)); by vm_compute.
Defined.

End MarketQueries.

(** ** The recommendation table: updates and queries *)

Section TrackerUpdates.

Import AIPerformanceTracker TrackerSpec.
Local Open Scope Q_scope.

Implicit Types (table : list Row) (rid : Z).

Lemma update_where_id_absent table rid (f : Row → Row) :
  Forall (λ r, id r ≠ rid) table → update_where_id table rid f = table.
Proof.
  unfold update_where_id. induction 1 as [| r l Hr _ IH]; [done |].
  simpl. rewrite bool_decide_eq_false_2 by done. by f_equal.
Qed.

Lemma update_where_id_lookup table rid (f : Row → Row) (i : nat) :
  update_where_id table rid f !! i
  = (λ r, if bool_decide (id r = rid) then f r else r) <$> table !! i.
Proof. unfold update_where_id. apply list_lookup_fmap. Qed.

Lemma find_unique table rid (i : nat) (r : Row) :
  unique_ids table → table !! i = Some r → id r = rid →
  List.find (λ r, bool_decide (id r = rid)) table = Some r.
Proof.
  unfold unique_ids. revert i. induction table as [| a l IH]; intros i Hnd Hi Hr;
    [done |].
  simpl in Hnd. apply NoDup_cons in Hnd as [Hna Hnd]. simpl.
  destruct i as [| i]; simpl in Hi.
  - injection Hi as ->. by rewrite bool_decide_eq_true_2.
  - rewrite bool_decide_eq_false_2; [by apply (IH i) |].
    intros Ha. apply Hna. rewrite Ha, <- Hr.
    apply list_elem_of_fmap. exists r. split; [done |].
    by apply list_elem_of_lookup_2 in Hi.
Qed.

(** X17. An update for an id that is not in the table reports success and
    changes nothing, on the buy side and (when the return can be computed)
    on the sell side. *)
Theorem update_unknown_id table rid (e xp : Q) (xts : option datetime)
    (now : datetime) :
  Forall (λ r, id r ≠ rid) table → ¬ e == 0 →
  update_recommendation_result table rid (Some e) None xts now = (true, table)
  ∧ update_recommendation_result table rid (Some e) (Some xp) xts now
    = (true, table).
Proof.
  intros Hid He. unfold update_recommendation_result, compute_actual_return.
  rewrite (update_where_id_absent _ _ _ Hid). split; [done |].
  destruct (Qeq_bool e 0) eqn:Hz; [by apply Qeq_bool_iff in Hz |].
  by rewrite (update_where_id_absent _ _ _ Hid).
Qed.

Lemma update_unknown_id_witness :
  update_recommendation_result table_two 7 (Some 1000) None None 100000
  = (true, table_two).
Proof.
  refine (proj1 (update_unknown_id table_two 7 1000 1031 None 100000 _ _)).
  - repeat constructor; by vm_compute.
  - by vm_compute.
Defined.

(** X18. The life of a recommendation: in a table with unique ids, the
    buy-side update of a row marks it executed at the given price and leaves
    its exit half as it was; the sell-side update that follows, with that
    price e > 0, records the exit price and time, the return
    (exit - e) / e * 100, the whole days held since the recommendation, and
    success exactly when the exit price is above e.  No other row changes. *)
Theorem recommendation_lifecycle table rid (i : nat) (r : Row) (e xp : Q)
    (xts now now' : datetime) :
  unique_ids table → table !! i = Some r → id r = rid → 0 < e →
  let bought := update_recommendation_result table rid (Some e) None None now in
  let sold := update_recommendation_result bought.2 rid (Some e) (Some xp)
                                           (Some xts) now' in
  bought.1 = true ∧ sold.1 = true ∧
  bought.2 !! i
    = Some (mkRow rid (timestamp r) (market r) (recommended_coin r)
                  (confidence r) true (Some e) (exit_price r)
                  (exit_timestamp r) (actual_return r) (holding_days r)
                  (success r)) ∧
  sold.2 !! i
    = Some (mkRow rid (timestamp r) (market r) (recommended_coin r)
                  (confidence r) true (Some e) (Some xp) (Some xts)
                  (Some ((xp - e) / e * 100))
                  (Some (days_between xts (timestamp r)))
                  (Some (negb (Qle_bool ((xp - e) / e * 100) 0)))) ∧
  (negb (Qle_bool ((xp - e) / e * 100) 0) = true ↔ e < xp) ∧
  (∀ j, j ≠ i → sold.2 !! j = table !! j).
Proof.
  intros Hu Hi Hr He bought sold.
  assert (Hnz : Qeq_bool e 0 = false).
  { destruct (Qeq_bool e 0) eqn:Hz; [| done].
    apply Qeq_bool_iff in Hz. lra. }
  assert (Hb : bought = (true, update_where_id table rid
                                 (set_execution (Some e)))) by done.
  set (r1 := set_execution (Some e) r).
  assert (Hbi : bought.2 !! i = Some r1).
  { rewrite Hb. simpl. rewrite update_where_id_lookup, Hi. simpl.
    by rewrite bool_decide_eq_true_2. }
  assert (Hub : unique_ids bought.2).
  { rewrite Hb. simpl. unfold unique_ids, update_where_id in *.
    rewrite <- list_fmap_compose.
    erewrite list_fmap_ext; [exact Hu |]. intros k x _. simpl.
    by destruct (bool_decide (id x = rid)). }
  assert (Hfind : List.find (λ r, bool_decide (id r = rid)) bought.2 = Some r1).
  { by apply (find_unique _ _ i). }
  assert (Hs : sold = (true, update_where_id bought.2 rid
                               (set_exit (Some e) xp (Some xts)
                                  ((xp - e) / e * 100)
                                  (days_between xts (timestamp r))
                                  (negb (Qle_bool ((xp - e) / e * 100) 0))))).
  { subst sold. unfold update_recommendation_result at 1.
    unfold compute_actual_return. rewrite Hnz, Hfind. done. }
  split; [by rewrite Hb |]. split; [by rewrite Hs |].
  split.
  { etrans; [exact Hbi |]. unfold r1, set_execution. by rewrite Hr. }
  split; [| split].
  - rewrite Hs. simpl. rewrite update_where_id_lookup.
    replace (bought.2 !! i) with (Some r1) by (symmetry; exact Hbi). simpl.
    rewrite bool_decide_eq_true_2 by done. unfold set_exit. simpl.
    by rewrite Hr.
  - rewrite negb_true_iff, Qle_bool_false.
    assert (Hd : xp - e == ((xp - e) / e) * e) by (field; lra).
    set (q := (xp - e) / e) in *. clearbody q. split; intros H; nra.
  - intros j Hj. rewrite Hs, Hb. simpl. rewrite !update_where_id_lookup.
    destruct (table !! j) as [r' |] eqn:Hj'; [| done]. simpl.
    assert (Hne : id r' ≠ rid).
    { intros Heq. apply Hj. unfold unique_ids in Hu.
      eapply (NoDup_lookup _ j i (id r') Hu);
        rewrite list_lookup_fmap; [by rewrite Hj' | rewrite Hi; simpl; congruence]. }
    rewrite (bool_decide_eq_false_2 _ Hne). simpl.
    by rewrite (bool_decide_eq_false_2 _ Hne).
Qed.

Lemma recommendation_lifecycle_witness :
  (update_recommendation_result
     (update_recommendation_result table_two 1 (Some 1000) None None 87000).2
     1 (Some 1000) (Some 1031) (Some 260000%Z) 260000).1 = true.
Proof.
  refine (proj1 (proj2 (recommendation_lifecycle table_two 1 0
            (mkRow 1 86400 "KRW-BTC" "BTC" 8 false None None None None None None)
            1000 1031 260000 87000 260000 _ _ _ _))).
  - unfold unique_ids.
    apply (bool_decide_eq_true_1 (NoDup (id <$> table_two))). by vm_compute.
  - reflexivity.
  - reflexivity.
  - reflexivity.
Defined.

End TrackerUpdates.

Section TrackerRecent.

Import AIPerformanceTracker TrackerSpec.

Lemma insert_recent_perm (x : Row) (l : list Row) :
  insert_recent x l ≡ₚ x :: l.
Proof.
  induction l as [| y l IH]; [done |]. simpl.
  destruct (bool_decide _); [| done].
  rewrite IH. apply Permutation_swap.
Qed.

Lemma order_by_perm_acc (l acc : list Row) :
  foldl (λ acc x, insert_recent x acc) acc l ≡ₚ l ++ acc.
Proof.
  revert acc. induction l as [| x l IH]; intros acc; [done |].
  simpl. rewrite IH, insert_recent_perm. by rewrite Permutation_middle.
Qed.

Lemma insert_recent_sorted (x : Row) (l : list Row) :
  Sorted newer_first l → Sorted newer_first (insert_recent x l).
Proof.
  induction l as [| y l IH]; intros Hs; simpl.
  - by repeat constructor.
  - apply Sorted_inv in Hs as [Hs Hhd]. case_bool_decide as Hxy.
    + constructor; [by apply IH |].
      destruct l as [| z l]; simpl.
      * by constructor.
      * case_bool_decide; constructor; [| done].
        by apply HdRel_inv in Hhd.
    + constructor; [by constructor |]. constructor.
      unfold newer_first. lia.
Qed.

Lemma order_by_sorted_acc (l acc : list Row) :
  Sorted newer_first acc →
  Sorted newer_first (foldl (λ acc x, insert_recent x acc) acc l).
Proof.
  revert acc. induction l as [| x l IH]; intros acc Hs; [done |].
  simpl. apply IH. by apply insert_recent_sorted.
Qed.

(** X19. The recent recommendations: the list has at most [limit] rows,
    newest first, each of them a row of the table; and when the table has no
    more than [limit] rows, it is the whole table reordered. *)
Theorem recent_recommendations_order (table : list Row) (limit : nat) :
  (length (get_recent_recommendations table limit) ≤ limit)%nat ∧
  Sorted newer_first (get_recent_recommendations table limit) ∧
  (∀ r, r ∈ get_recent_recommendations table limit → r ∈ table) ∧
  ((length table ≤ limit)%nat →
   get_recent_recommendations table limit ≡ₚ table).
Proof.
  unfold get_recent_recommendations, order_by_timestamp_desc.
  pose proof (order_by_perm_acc table []) as Hp. rewrite app_nil_r in Hp.
  split; [rewrite length_take; lia |]. split; [| split].
  - apply Sorted_take, order_by_sorted_acc. constructor.
  - intros r Hr. rewrite <- Hp.
    apply elem_of_take in Hr as (k & Hk & _).
    by apply list_elem_of_lookup_2 in Hk.
  - intros Hl. rewrite take_ge; [done |]. by rewrite Hp.
Qed.

End TrackerRecent.

(** ** Selling (trade_bot.py) *)

Section SellPath.

Import TradeBot Scenario BotSpec TradeBotMore.
Local Open Scope Q_scope.

Implicit Types (self : TradeBot.t) (ex : Exchange) (now : datetime).

Lemma tracker_exit_unchanged (tb : list AIPerformanceTracker.Row) m p now :
  (AIPerformanceTracker._update_ai_recommendation_exit tb m p now).1 = tb.
Proof.
  unfold AIPerformanceTracker._update_ai_recommendation_exit.
  apply exit_update_loop_unchanged.
Qed.

Lemma await_order_done ex uuid oi :
  get_order_info ex uuid 0 = Some oi → state oi = Some "done" →
  await_order ex uuid = (Some oi, [Sleep 3]) ∧ is_filled (Some oi) = true.
Proof.
  intros Hq Hs. unfold await_order, is_filled. rewrite Hq, Hs.
  split; reflexivity.
Qed.

(** X20. A sell that fills: for an open position with a nonzero invested
    amount, when the exchange accepts the order and reports it done at an
    average price p, _execute_sell closes the position in the ledger at p,
    books quantity * p - invested on the day's P&L, and sends one sell
    notification carrying that profit and its rate; the recommendation table
    is left as it was. *)
Theorem execute_sell_filled self ex now m pos uuid oi (p : Q) cp why :
  RiskManager.positions (risk_manager self) !! m = Some pos →
  RiskManager.is_open pos →
  ¬ RiskManager.investment_amount pos == 0 →
  place_sell_order ex m (RiskManager.quantity pos) = Some uuid →
  get_order_info ex uuid 0 = Some oi → state oi = Some "done" →
  avg_price oi = Some p →
  let q := RiskManager.quantity pos in
  let invested := RiskManager.investment_amount pos in
  let pl := q * p - invested in
  let rm' := (RiskManager.close_position (risk_manager self) now m p).2 in
  _execute_sell self ex now m cp why
    = (PNone, set_risk_manager self rm',
       [ PlaceSellOrder m q; Sleep 3;
         NotifySell m p (q * p) pl (pl / invested * 100) why ]) ∧
  RiskManager.has_open rm' m = false ∧
  RiskManager.get_daily_pnl rm' (date_of now)
    = RiskManager.get_daily_pnl (risk_manager self) (date_of now) + pl.
Proof.
  intros Hm Hopen Hinv Hplace Hq Hs Hp q invested pl rm'.
  subst q invested pl.
  destruct (await_order_done ex uuid oi Hq Hs) as [Hw Hf].
  destruct (close_position_open (risk_manager self) now m p pos Hm Hopen)
    as (rm1 & row & Hc & _ & _ & _ & _ & Hday).
  assert (Hrm : rm' = rm1) by (subst rm'; by rewrite Hc).
  clearbody rm'. subst rm1.
  split; [| split].
  - unfold _execute_sell. rewrite Hm, (bool_decide_eq_true_2 _ Hopen). simpl.
    rewrite Hplace, Hw, Hf. simpl. rewrite Hp. simpl. rewrite Hc.
    destruct (Qeq_bool (RiskManager.investment_amount pos) 0) eqn:Hz;
      [by apply Qeq_bool_iff in Hz |].
    simpl. by rewrite tracker_exit_unchanged.
  - destruct (close_position_positions (risk_manager self) now m p pos
                Hm Hopen) as [Hpos _].
    rewrite Hc in Hpos. simpl in Hpos.
    unfold RiskManager.has_open. rewrite Hpos. by rewrite lookup_insert_eq.
  - rewrite Hday. by rewrite bool_decide_eq_true_2.
Qed.

Lemma execute_sell_filled_witness :
  RiskManager.has_open
    (RiskManager.close_position (risk_manager bot_btc) 46800 "KRW-BTC" 1010).2
    "KRW-BTC" = false.
Proof.
  refine (proj1 (proj2 (execute_sell_filled bot_btc (filling_exchange 1010)
            46800 "KRW-BTC"
            (RiskManager.Position_init "KRW-BTC" 1000 30 0 30000)
            "uuid-sell" (mkOrderInfo (Some "done") (Some 30) (Some 1010))
            1010 (PFloat 1010) (Text "take profit") _ _ _ _ _ _ _)));
    first [ reflexivity | by vm_compute ].
Defined.

(** X21. A rebalancing sell when the order report has no average price:
    the sell order is placed and filled on the exchange, but converting the
    text "REBALANCING", passed where the price is expected, to a number
    raises; the ledger, the day's P&L and the history are left untouched and
    no notification is sent, so the position stays open in the ledger. *)
Theorem rebalancing_sell_without_avg_price self ex now decision pos uuid oi :
  RiskManager.positions (risk_manager self) !! sell_market decision = Some pos →
  RiskManager.is_open pos →
  place_sell_order ex (sell_market decision) (RiskManager.quantity pos)
    = Some uuid →
  get_order_info ex uuid 0 = Some oi → state oi = Some "done" →
  avg_price oi = None →
  _execute_rebalancing self ex now decision
    = (self, [ PlaceSellOrder (sell_market decision) (RiskManager.quantity pos);
               Sleep 3 ]).
Proof.
  intros Hm Hopen Hplace Hq Hs Hp.
  destruct (await_order_done ex uuid oi Hq Hs) as [Hw Hf].
  rewrite _execute_rebalancing_is_sell. cbv zeta.
  unfold _execute_sell. rewrite Hm, (bool_decide_eq_true_2 _ Hopen). simpl.
  rewrite Hplace, Hw, Hf. simpl. by rewrite Hp.
Qed.

Lemma rebalancing_sell_without_avg_price_witness :
  _execute_rebalancing bot_btc (filling_exchange_no_avg 1010) 46800
                       decision_btc_to_eth
  = (bot_btc, [ PlaceSellOrder "KRW-BTC" 30; Sleep 3 ]).
Proof.
  apply (rebalancing_sell_without_avg_price bot_btc
           (filling_exchange_no_avg 1010) 46800 decision_btc_to_eth
           (RiskManager.Position_init "KRW-BTC" 1000 30 0 30000)
           "uuid-sell" (mkOrderInfo (Some "done") (Some 30) None));
    reflexivity.
Defined.

(** X22. The ledger moves only on a fill: if _execute_sell returns a bot
    that differs from the one it was given, then the market had an open
    position, the exchange accepted the sell order, and the order report
    counted as filled. *)
Theorem execute_sell_changes_only_on_fill self ex now m cp why :
  (_execute_sell self ex now m cp why).1.2 ≠ self →
  ∃ pos uuid,
    RiskManager.positions (risk_manager self) !! m = Some pos ∧
    RiskManager.is_open pos ∧
    place_sell_order ex m (RiskManager.quantity pos) = Some uuid ∧
    is_filled (await_order ex uuid).1 = true.
Proof.
  unfold _execute_sell.
  destruct (RiskManager.positions (risk_manager self) !! m) as [pos |];
    [| done].
  case_bool_decide as Hopen; simpl; [| done].
  destruct (place_sell_order ex m _) as [uuid |] eqn:Hplace; [| done].
  destruct (await_order ex uuid) as [order_info waits] eqn:Hw.
  destruct (is_filled order_info) eqn:Hf; [| done].
  intros _. exists pos, uuid. by rewrite Hw.
Qed.

Lemma execute_sell_changes_only_on_fill_witness :
  ∃ pos uuid,
    RiskManager.positions (risk_manager bot_btc) !! "KRW-BTC" = Some pos ∧
    RiskManager.is_open pos ∧
    place_sell_order (filling_exchange 1010) "KRW-BTC"
                     (RiskManager.quantity pos) = Some uuid ∧
    is_filled (await_order (filling_exchange 1010) uuid).1 = true.
Proof.
  apply (execute_sell_changes_only_on_fill bot_btc (filling_exchange 1010)
           46800 "KRW-BTC" (PFloat 1010) (Text "take profit")).
  intros H.
  apply (f_equal (λ b, RiskManager.has_open (risk_manager b) "KRW-BTC")) in H.
  vm_compute in H. discriminate H.
Defined.

End SellPath.

(** ** Buying, and the 12-hour check (trade_bot.py) *)

Section BuyPath.

Import TradeBot Scenario BotSpec TradeBotMore.
Local Open Scope Q_scope.

Implicit Types (self : TradeBot.t) (ex : Exchange) (now : datetime).

Lemma buy_waits_covered ex uuid krw mb :
  Forall (covered krw mb) (buy_waits ex uuid).2.
Proof.
  unfold buy_waits. repeat case_match; simpl; by repeat constructor.
Qed.

(** X23. Buy orders are covered by the balance: _execute_buy places no
    order when the KRW balance is below min_balance_for_buy, and every order
    it places is for an amount not above the balance; without an enabled
    analyzer the amount is also not above the configured investment_amount
    nor above 80% of the balance. *)
Theorem execute_buy_within_balance self ex now (krw ai_amount : Q)
    (candidate : Candidate) (settings : BuySettings) :
  let events := (_execute_buy self ex now krw ai_amount candidate settings).2 in
  Forall (covered krw (min_balance_for_buy settings)) events ∧
  (krw < min_balance_for_buy settings →
   _execute_buy self ex now krw ai_amount candidate settings = (self, [])) ∧
  (ai_analyzer self ≠ Some true →
   ∀ m amount, PlaceBuy m amount ∈ events →
     amount <= investment_amount settings ∧ amount <= krw * (8 # 10)).
Proof.
  simpl. unfold _execute_buy.
  destruct (Qle_bool (min_balance_for_buy settings) krw) eqn:Hmin; simpl.
  2:{ split; [constructor |]. split; [done |]. by intros _ m a ?%elem_of_nil. }
  apply Qle_bool_iff in Hmin.
  set (amount := if bool_decide (ai_analyzer self = Some true) then ai_amount
                 else Qmin (investment_amount settings) (krw * (8 # 10))).
  destruct (Qle_bool amount krw) eqn:Hamt; simpl.
  2:{ split; [constructor |]. split; [intros; lra |].
      by intros _ m a ?%elem_of_nil. }
  apply Qle_bool_iff in Hamt.
  assert (Hplace : covered krw (min_balance_for_buy settings)
                           (PlaceBuy (c_market candidate) amount)) by done.
  assert (Hdef : ai_analyzer self ≠ Some true →
                 amount <= investment_amount settings
                 ∧ amount <= krw * (8 # 10)).
  { intros Hai. unfold amount. rewrite bool_decide_eq_false_2 by done.
    split; [apply Q.le_min_l | apply Q.le_min_r]. }
  assert (Hgoal : ∀ (s : TradeBot.t) (evs : list buy_event),
            Forall (covered krw (min_balance_for_buy settings)) evs →
            (∀ m a, PlaceBuy m a ∈ evs → a = amount) →
            Forall (covered krw (min_balance_for_buy settings)) evs ∧
            (krw < min_balance_for_buy settings → (s, evs) = (self, [])) ∧
            (ai_analyzer self ≠ Some true →
             ∀ m a, PlaceBuy m a ∈ evs →
               a <= investment_amount settings ∧ a <= krw * (8 # 10))).
  { intros s evs Hc Ha. split; [done |]. split; [intros; lra |].
    intros Hai m a Hin. rewrite (Ha m a Hin). by apply Hdef. }
  destruct (place_buy_order ex (c_market candidate) amount) as [uuid |].
  2:{ apply Hgoal; [by repeat constructor |].
      by intros m a [= _ ->]%list_elem_of_singleton. }
  pose proof (buy_waits_covered ex uuid krw (min_balance_for_buy settings))
    as Hw.
  assert (Hwa : ∀ m a, PlaceBuy m a ∈ (buy_waits ex uuid).2 → False).
  { unfold buy_waits. intros m a.
    destruct (get_order_info ex uuid 0) as [oi0 |]; [case_bool_decide |];
      simpl; rewrite ?elem_of_cons, elem_of_nil; intros Hin;
      repeat (destruct Hin as [Hin | Hin]; [discriminate Hin |]); done. }
  destruct (buy_waits ex uuid) as [order_info waits]. simpl in *.
  assert (Hev : Forall (covered krw (min_balance_for_buy settings))
                       (PlaceBuy (c_market candidate) amount :: waits))
    by (by constructor).
  assert (Hea : ∀ m a, PlaceBuy m a ∈ PlaceBuy (c_market candidate) amount
                                       :: waits → a = amount).
  { intros m a [[= _ ->] | Hin]%elem_of_cons; [done |]. by destruct (Hwa m a). }
  destruct (is_filled order_info); [| by apply Hgoal].
  destruct (negb (Qle_bool _ 0)); [| by apply Hgoal].
  destruct (RiskManager.add_position _ _ _ _ _ _) as [[] rm];
    [| by apply Hgoal].
  apply Hgoal.
  - constructor; [done |]. apply Forall_app. split; [done |].
    by repeat constructor.
  - intros m a [[= _ ->] | [Hin | Hin]%elem_of_app]%elem_of_cons; [done | |].
    + by destruct (Hwa m a).
    + by apply list_elem_of_singleton in Hin.
Qed.

Lemma buy_waits_done ex uuid oi :
  get_order_info ex uuid 0 = Some oi → state oi = Some "done" →
  buy_waits ex uuid = (Some oi, [Wait 3]) ∧ is_filled (Some oi) = true.
Proof.
  intros Hq Hs. unfold buy_waits, is_filled. rewrite Hq, Hs.
  split; reflexivity.
Qed.

(** X24. A buy that fills: when the balance covers the amount, the
    exchange accepts the order and reports it done with volume v > 0 at
    average price p, then: if the ledger has a free slot and the market is
    not held, the position is recorded with entry price p, quantity v and
    invested amount v * p, and one buy notification is sent; if the ledger
    has no free slot, the order has been placed and filled all the same but
    the ledger is left unchanged and nothing is notified. *)
Theorem execute_buy_filled self ex now (krw ai_amount : Q)
    (candidate : Candidate) (settings : BuySettings) uuid oi (v p : Q) :
  let market := c_market candidate in
  let amount :=
    if bool_decide (ai_analyzer self = Some true) then ai_amount
    else Qmin (investment_amount settings) (krw * (8 # 10)) in
  min_balance_for_buy settings <= krw → amount <= krw →
  place_buy_order ex market amount = Some uuid →
  get_order_info ex uuid 0 = Some oi → state oi = Some "done" →
  executed_volume oi = Some v → 0 < v → avg_price oi = Some p →
  let r := _execute_buy self ex now krw ai_amount candidate settings in
  (RiskManager.can_open_position (risk_manager self) = true →
   RiskManager.has_open (risk_manager self) market = false →
   RiskManager.positions (risk_manager r.1) !! market
     = Some (RiskManager.Position_init market p v now (v * p)) ∧
   r.2 = [PlaceBuy market amount; Wait 3; NotifyBuy market p (v * p)]) ∧
  (RiskManager.can_open_position (risk_manager self) = false →
   r = (self, [PlaceBuy market amount; Wait 3])).
Proof.
  intros market amount Hmin Hamt Hplace Hq Hs Hv Hvpos Hp r.
  destruct (buy_waits_done ex uuid oi Hq Hs) as [Hw Hf].
  assert (Hr : r =
    let '(success, rm) :=
      RiskManager.add_position (risk_manager self) now market p v (v * p) in
    if success then
      (_update_ai_recommendation_execution (set_risk_manager self rm)
         candidate p now,
       [PlaceBuy market amount; Wait 3; NotifyBuy market p (v * p)])
    else (set_risk_manager self rm, [PlaceBuy market amount; Wait 3])).
  { subst r. unfold _execute_buy.
    apply Qle_bool_iff in Hmin, Hamt. fold market. rewrite Hmin. simpl.
    fold amount. rewrite Hamt. simpl. rewrite Hplace, Hw, Hf. simpl.
    rewrite Hv, Hp. simpl.
    assert (Hnz : Qle_bool v 0 = false) by (by apply Qle_bool_false).
    rewrite Hnz. simpl.
    by destruct (RiskManager.add_position _ _ _ _ _ _) as [[] rm]. }
  clearbody r. subst r. split.
  - intros Hcan Hno. unfold RiskManager.add_position. rewrite Hcan, Hno. simpl.
    split; [| done].
    unfold _update_ai_recommendation_execution.
    destruct (c_recommendation_id candidate) as [rid |];
      [case_bool_decide |]; simpl; by rewrite lookup_insert_eq.
  - intros Hcan. rewrite add_position_rejected by (by left).
    by destruct self.
Qed.

Lemma execute_buy_filled_witness :
  RiskManager.positions
    (risk_manager
       (_execute_buy bot_empty (filling_exchange 1000) 500 50000 0
          (mkCandidate "KRW-BTC" 1000 None) (mkBuySettings 30000 30000 3)).1)
    !! "KRW-BTC"
  = Some (RiskManager.Position_init "KRW-BTC" 1000 30 500 (30 * 1000)).
Proof.
  refine (proj1 (proj1 (execute_buy_filled bot_empty (filling_exchange 1000)
            500 50000 0 (mkCandidate "KRW-BTC" 1000 None)
            (mkBuySettings 30000 30000 3) "uuid-buy"
            (mkOrderInfo (Some "done") (Some 30) (Some 1000)) 30 1000
            _ _ _ _ _ _ _ _) _ _));
    first [ reflexivity | by vm_compute ].
Defined.

End BuyPath.

Section TwelveHourCheck.

Import TradeBot Scenario BotSpec TradeBotMore.
Local Open Scope Q_scope.

Implicit Types (self : TradeBot.t) (ex : Exchange) (now : datetime).

Lemma UpbitAPI_get_tradeable_markets :
  getattr "UpbitAPI" UpbitAPI_attrs "get_tradeable_markets"
  = Raise (AttributeError "UpbitAPI" "get_tradeable_markets").
Proof. by vm_compute. Qed.

(** X25. Rebalancing decisions: a decision is made for a stagnant position
    exactly when the analyzer answered, its confidence reaches the
    threshold and its expected return is at most -3; and every decision
    names the position's market to sell and carries no market to buy,
    because the search for a new opportunity asks the UpbitAPI object for
    get_tradeable_markets, which it does not have. *)
Theorem rebalancing_decision_law (rest : option BuyAnalysis)
    (ai : option FutureAnalysis) (threshold : Q) (pos_info : Stagnant) :
  (is_Some (_analyze_rebalancing_candidate rest ai threshold pos_info) ↔
   ∃ fa, ai = Some fa ∧
         threshold <= default 0 (fa_confidence fa) ∧
         default 0 (fa_expected_profit fa) <= -3) ∧
  (∀ d, _analyze_rebalancing_candidate rest ai threshold pos_info = Some d →
        sell_market d = st_market pos_info ∧ buy_analysis d = None).
Proof.
  unfold _analyze_rebalancing_candidate, _find_rebalancing_opportunity.
  rewrite UpbitAPI_get_tradeable_markets.
  destruct ai as [fa |].
  2:{ split; [| done]. split; [by intros [? ?] | by intros (? & ? & _)]. }
  destruct (Qle_bool threshold (default 0 (fa_confidence fa))) eqn:Hc; simpl.
  - apply Qle_bool_iff in Hc.
    destruct (Qle_bool (default 0 (fa_expected_profit fa)) (-3)) eqn:He.
    + apply Qle_bool_iff in He. split; [| by intros d [= <-]].
      split; [intros _; by exists fa | eauto].
    + apply Qle_bool_false in He. split; [| done].
      split; [by intros [? ?] | intros (? & [= <-] & _ & H); lra].
  - apply Qle_bool_false in Hc. split; [| done].
    split; [by intros [? ?] | intros (? & [= <-] & H & _); lra].
Qed.

Lemma stagnant_rate (E cp : Q) :
  0 < E →
  (Qle_bool (-2) ((cp - E) / E * 100) && Qle_bool ((cp - E) / E * 100) 2 = true
   ↔ E * (98 # 100) <= cp ∧ cp <= E * (102 # 100)).
Proof.
  intros HE. rewrite andb_true_iff, !Qle_bool_iff.
  assert (Hd : cp - E == ((cp - E) / E) * E) by (field; lra).
  set (q := (cp - E) / E) in *. clearbody q.
  split; intros [H1 H2]; split; nra.
Qed.

(** X26. The stagnation window: for a position with a positive entry
    price E whose current price is known, the 12-hour check treats it as
    stagnant exactly when it has been held for 12 hours or more and the
    price lies between 0.98 E and 1.02 E. *)
Theorem stagnant_entry_window ex now (m : string) (pos : RiskManager.Position)
    (cp : Q) :
  get_current_price ex m = Ok (Some cp) →
  0 < RiskManager.entry_price pos →
  ((∃ s, stagnant_entry ex now (m, pos) = Ok (Some s)) ↔
   (43200 ≤ now - RiskManager.entry_time pos)%Z ∧
   RiskManager.entry_price pos * (98 # 100) <= cp ∧
   cp <= RiskManager.entry_price pos * (102 # 100)).
Proof.
  intros Hcp HE. unfold stagnant_entry.
  change (12 * 3600)%Z with 43200%Z.
  case_bool_decide as Hh.
  2:{ split; [by intros [? ?] | by intros [? _]]. }
  rewrite Hcp. simpl.
  destruct (Qeq_bool (RiskManager.entry_price pos) 0) eqn:Hz.
  { apply Qeq_bool_iff in Hz. lra. }
  pose proof (stagnant_rate (RiskManager.entry_price pos) cp HE) as Hr.
  destruct (Qle_bool (-2) _ && Qle_bool _ 2).
  - split; [intros _; split; [done | by apply Hr] | eauto].
  - split; [by intros [? ?] |]. intros [_ H]. apply Hr in H. discriminate.
Qed.

Lemma stagnant_entry_window_witness :
  (∃ s, stagnant_entry (filling_exchange 1010) 46800
          ("KRW-BTC", RiskManager.Position_init "KRW-BTC" 1000 30 0 30000)
        = Ok (Some s)) ↔
  (43200 ≤ 46800 - 0)%Z ∧ 1000 * (98 # 100) <= 1010 ∧ 1010 <= 1000 * (102 # 100).
Proof.
  apply (stagnant_entry_window (filling_exchange 1010) 46800 "KRW-BTC"
           (RiskManager.Position_init "KRW-BTC" 1000 30 0 30000) 1010);
    reflexivity.
Defined.

Lemma execute_decisions_quiet ex now decisions acc :
  Forall quiet acc.2 →
  Forall quiet
    (foldl (λ acc decision,
              let '(self', evs) := _execute_rebalancing acc.1 ex now decision in
              (self', acc.2 ++ evs))
           acc decisions).2.
Proof.
  revert acc. induction decisions as [| d ds IH]; intros acc Hq; [done |].
  simpl. apply IH. rewrite _execute_rebalancing_is_sell. simpl.
  apply Forall_app. split; [done |]. apply _execute_sell_result.
Qed.

(** X27. The 12-hour check sells at most: whatever the analyzer answers
    and the exchange does, _check_rebalancing_opportunities places no buy
    order and sends no rebalancing notification; and when the price of a
    position held for 12 hours cannot be read, the check ends without
    touching anything. *)
Theorem twelve_hour_check_never_buys (rest : option BuyAnalysis)
    (ai : string → option FutureAnalysis) (threshold : Q) self ex now :
  Forall (λ ev, is_buy_or_rebalancing ev = false)
         (_check_rebalancing_opportunities rest ai threshold self ex now).2 ∧
  (∀ e, stagnant_loop ex now
          (map_to_list (RiskManager.get_open_positions (risk_manager self)))
        = Raise e →
        _check_rebalancing_opportunities rest ai threshold self ex now
        = (self, [])).
Proof.
  unfold _check_rebalancing_opportunities. split.
  - destruct (stagnant_loop ex now _) as [found |]; [| constructor].
    unfold execute_decisions.
    eapply Forall_impl; [apply execute_decisions_quiet; constructor |].
    by intros ev [H _].
  - by intros e ->.
Qed.

End TwelveHourCheck.

(** ** The daily sale (scheduler.py) *)

Section DailySale.

Import RiskManager LedgerSpec TradeUtilsMore Scheduler Scenario.
Local Open Scope Q_scope.

Implicit Types (rm : RiskManager.t) (api : Api) (run : Run).






Lemma run_ledger api now rm :
  ledger (_daily_sell_all_positions api now rm)
  = ledger (foldl (sell_position api now)
                  (mkRun rm 0 0 [NotifyInfo "📢 매일 정시 매도"])
                  (map_to_list (get_open_positions rm)))
  ∧ total_pnl (_daily_sell_all_positions api now rm)
  = total_pnl (foldl (sell_position api now)
                     (mkRun rm 0 0 [NotifyInfo "📢 매일 정시 매도"])
                     (map_to_list (get_open_positions rm))).
Proof.
  unfold _daily_sell_all_positions.
  destruct (map_to_list (get_open_positions rm)) as [| e es]; [done |].
  by case_bool_decide.
Qed.


Lemma entry_open rm k pos :
  (k, pos) ∈ map_to_list (get_open_positions rm) →
  positions rm !! k = Some pos ∧ is_open pos.
Proof.
  intros H%elem_of_map_to_list. unfold get_open_positions, open_filter in H.
  by apply map_lookup_filter_Some in H.
Qed.


Lemma ledger_btc_positions :
  positions ledger_btc
  = <["KRW-BTC" := Position_init "KRW-BTC" 1000 30 0 30000]> ∅.
Proof. reflexivity. Qed.


Lemma sell_position_total api now run m pos :
  holds_coin api m →
  get_daily_pnl (ledger (sell_position api now run (m, pos))) (date_of now)
    - total_pnl (sell_position api now run (m, pos))
  == get_daily_pnl (ledger run) (date_of now) - total_pnl run.
Proof.
  intros Hcoin. unfold sell_position. simpl.
  destruct (get_current_price api m) as [[cp |] |]; try reflexivity.
  destruct (Qeq_bool cp 0); [reflexivity |].
  destruct (currency_of m) as [currency |] eqn:Hcur; [| reflexivity].
  specialize (Hcoin currency Hcur).
  destruct (Qle_bool (get_coin_balance (accounts api) currency) 0) eqn:Hbal.
  { apply Qle_bool_iff in Hbal. lra. }
  destruct (place_sell_order api m _); simpl; [| reflexivity].
  destruct (get_position_pnl (ledger run) m cp) as [pnl_info | e] eqn:Hpnl;
    [| reflexivity].
  unfold get_position_pnl in Hpnl.
  destruct (positions (ledger run) !! m) as [p |] eqn:Hp.
  - destruct (decide (is_open p)) as [Hopen | Hclosed].
    + rewrite (bool_decide_eq_true_2 _ Hopen) in Hpnl. simpl in Hpnl.
      destruct (calculate_pnl_rate p cp) as [rate |]; [| done].
      simpl in Hpnl. injection Hpnl as <-. simpl.
      destruct (close_position_open (ledger run) now m cp p Hp Hopen)
        as (rm' & row & -> & _ & _ & _ & _ & Hday).
      simpl. rewrite Hday, bool_decide_eq_true_2 by done.
      unfold calculate_current_pnl. lra.
    + rewrite (bool_decide_eq_false_2 _ Hclosed) in Hpnl. simpl in Hpnl.
      injection Hpnl as <-. simpl.
      rewrite close_position_refused; [reflexivity |].
      unfold has_open. rewrite Hp. by apply bool_decide_eq_false_2.
  - injection Hpnl as <-. simpl.
    rewrite close_position_refused; [reflexivity |].
    unfold has_open. by rewrite Hp.
Qed.

Lemma sell_loop_total api now entries run :
  (∀ m pos, (m, pos) ∈ entries → holds_coin api m) →
  get_daily_pnl (ledger (foldl (sell_position api now) run entries))
                (date_of now)
    - total_pnl (foldl (sell_position api now) run entries)
  == get_daily_pnl (ledger run) (date_of now) - total_pnl run.
Proof.
  revert run. induction entries as [| [m pos] entries IH]; intros run H;
    [reflexivity |].
  simpl. rewrite IH.
  - apply sell_position_total. apply (H m pos). apply list_elem_of_here.
  - intros m' p' Hin. apply (H m' p'). by apply list_elem_of_further.
Qed.

(** X29. The total the daily sale reports is what the ledger booked: when
    the exchange still holds some of the coin of every open position, the
    day's realized P&L after the run is the P&L before plus the total_pnl of
    the run's summary. *)
Theorem daily_sale_report_matches api now rm :
  (∀ m pos, positions rm !! m = Some pos → is_open pos → holds_coin api m) →
  get_daily_pnl (ledger (_daily_sell_all_positions api now rm)) (date_of now)
  == get_daily_pnl rm (date_of now)
     + total_pnl (_daily_sell_all_positions api now rm).
Proof.
  intros H. destruct (run_ledger api now rm) as [-> ->].
  pose proof (sell_loop_total api now (map_to_list (get_open_positions rm))
                (mkRun rm 0 0 [NotifyInfo "📢 매일 정시 매도"])) as Ht.
  simpl in Ht. rewrite <- (Qplus_0_r (get_daily_pnl rm (date_of now))).
  assert (Hh : ∀ m pos, (m, pos) ∈ map_to_list (get_open_positions rm) →
                        holds_coin api m).
  { intros m pos [Hm Ho]%entry_open. by apply (H m pos). }
  specialize (Ht Hh). lra.
Qed.

Lemma daily_sale_report_matches_witness :
  get_daily_pnl (ledger (_daily_sell_all_positions api_ready 90000 ledger_btc))
                (date_of 90000)
  == get_daily_pnl ledger_btc (date_of 90000)
     + total_pnl (_daily_sell_all_positions api_ready 90000 ledger_btc).
Proof.
  apply (daily_sale_report_matches api_ready 90000 ledger_btc).
  intros m pos. rewrite ledger_btc_positions.
  destruct (decide ("KRW-BTC" = m)) as [<- | Hne].
  - rewrite lookup_insert_eq. intros _ _ currency [= <-]. by vm_compute.
  - rewrite lookup_insert_ne by done. by rewrite lookup_empty.
Defined.

Example daily_sale_of_ledger_btc :
  total_pnl (_daily_sell_all_positions api_ready 90000 ledger_btc)
  == 30 * 1010 - 30000.
Proof. by vm_compute. Qed.

End DailySale.

(** ** Synchronising the ledger with the exchange (risk_manager.py) *)

Section ForcedSync.

Import RiskManager LedgerSpec TradeUtilsMore LedgerSync Scenario.
Local Open Scope Q_scope.

Implicit Types (self : RiskManager.t) (api : UpbitApi) (now : datetime).

Lemma restore_loop_rebuilt self api now accounts
    (acc r : gmap string Position) :
  restore_loop self api now accounts acc = Ok r →
  (∀ m p, acc !! m = Some p → rebuilt m p) →
  ∀ m p, r !! m = Some p → rebuilt m p.
Proof.
  revert acc. induction accounts as [| a rest IH]; intros acc Hr Hacc.
  - simpl in Hr. by injection Hr as <-.
  - simpl in Hr.
    destruct (negb (bool_decide (currency a = "KRW"))
              && negb (Qle_bool (balance a) 0)) eqn:Hcond;
      [| by apply (IH acc)].
    apply andb_true_iff in Hcond as [_ Hbal].
    apply negb_true_iff, Qle_bool_false in Hbal.
    destruct (get_current_price api ("KRW-" +:+ currency a)) as [cp |];
      [| done].
    simpl in Hr. destruct (price_truth cp); [| by apply (IH acc)].
    apply (IH _ Hr). intros m p.
    destruct (decide ("KRW-" +:+ currency a = m)) as [<- | Hne].
    + rewrite lookup_insert_eq. intros [= <-]. by repeat split.
    + rewrite lookup_insert_ne by done. apply Hacc.
Qed.

Lemma restore_loop_down self api now accounts (acc : gmap string Position) :
  (∀ m, ∃ e, get_current_price api m = Raise e) →
  Exists (λ a, currency a ≠ "KRW" ∧ 0 < balance a) accounts →
  ∃ e, restore_loop self api now accounts acc = Raise e.
Proof.
  intros Hdown. induction 1 as [a rest [Hc Hb] | a rest _ IH]; simpl.
  - rewrite (bool_decide_eq_false_2 _ Hc). simpl.
    assert (Hq : Qle_bool (balance a) 0 = false) by (by apply Qle_bool_false).
    rewrite Hq. simpl.
    destruct (Hdown ("KRW-" +:+ currency a)) as [e ->]. by exists e.
  - destruct (negb _ && negb _); [| done].
    destruct (Hdown ("KRW-" +:+ currency a)) as [e ->]. by exists e.
Qed.

(** X30. A forced synchronisation: force_sync_with_upbit always answers
    True.  When the account list comes back empty (which is also what a
    failed account request gives), the ledger and the snapshot file end
    empty; when the price request raises while some coin is held, the
    in-memory ledger ends empty and the snapshot file is left as it was: in
    neither case are the positions held before put back.  Every position
    that a synchronisation does create is open, is filed under its own
    market, has a positive quantity and an invested amount equal to entry
    price times quantity. *)
Theorem force_sync_law self api now :
  let r := force_sync_with_upbit self api now in
  r.1 = true ∧
  (get_accounts api = [] → positions r.2 = ∅ ∧ positions_file r.2 = ∅) ∧
  ((∀ m, ∃ e, get_current_price api m = Raise e) →
   Exists (λ a, currency a ≠ "KRW" ∧ 0 < balance a) (get_accounts api) →
   positions r.2 = ∅ ∧ positions_file r.2 = positions_file self) ∧
  (∀ m p, positions r.2 !! m = Some p → rebuilt m p).
Proof.
  simpl. split; [done |].
  unfold force_sync_with_upbit, restore_positions_from_upbit. simpl.
  split; [| split].
  - intros ->. simpl. split; [done |].
    unfold open_filter. apply map_filter_empty.
  - intros Hdown Hheld.
    destruct (restore_loop_down (set_positions self ∅) api now
                (get_accounts api) ∅ Hdown Hheld) as [e ->]. done.
  - intros m p.
    destruct (restore_loop (set_positions self ∅) api now (get_accounts api) ∅)
      as [restored | e] eqn:Hloop; simpl.
    + apply (restore_loop_rebuilt _ _ _ _ _ _ Hloop).
      intros m' p'. by rewrite lookup_empty.
    + by rewrite lookup_empty.
Qed.

(** The ledger holds KRW-BTC and the price request fails: the forced
    synchronisation reports success and the ledger holds nothing. *)
Example force_sync_when_prices_down :
  count_open ledger_btc = 1%nat ∧
  (force_sync_with_upbit ledger_btc api_prices_down 90000).1 = true ∧
  count_open (force_sync_with_upbit ledger_btc api_prices_down 90000).2
    = 0%nat.
Proof. repeat split; by vm_compute. Qed.

End ForcedSync.
